(** * Vacancy search adapters: HeadHunter (hh.ru) and SuperJob

    A shallow embedding of [src/api/HhAPI.py] and [src/api/SuperJobAPI.py]:
    the two adapters ([HhAPI], [SuperJobAPI]) and their controllers
    ([ControllerHH], [ControllerSuperJob]).

    The Python code is dynamically typed and works on decoded JSON, so the
    embedding works on a type [pyval] of Python values, with the exceptions
    the built-in operations raise made explicit in a [result] type.  Code
    that talks to the network runs in a monad [M] that reads the outside
    world and logs every request and every line printed. *)

From Stdlib Require Import ZArith List String Ascii Bool Lia.
From Stdlib Require Import Floats.SpecFloat DecimalString.
Import ListNotations.
Local Open Scope string_scope.
Local Open Scope Z_scope.

Set Implicit Arguments.

(** ** Python values *)

(** IEEE 754 binary64, the Python [float]. *)
Definition float64 : Type := spec_float.

Definition prec64 : Z := 53.
Definition emax64 : Z := 1024.

(** The values a decoded JSON document is made of.  A [str] is held as its
    UTF-8 encoding; a [dict] as the list of its items in insertion order,
    where a lookup takes the first item with the key. *)
#[warnings="-register-all"]
Inductive pyval : Type :=
| PNone
| PBool (b : bool)
| PInt (z : Z)
| PFloat (f : float64)
| PStr (s : string)
| PList (l : list pyval)
| PDict (d : list (string * pyval)).

(** The exceptions of the embedded code.  [RequestException] stands for
    [requests.exceptions.RequestException] and all of its subclasses
    (connection errors, timeouts, ...); [PyException] is a plain
    [Exception(msg)], which is not a [RequestException]. *)
Inductive exn : Type :=
| TypeError
| AttributeError
| KeyError (k : string)
| ValueError
| OverflowError
| RequestException
| PyException (msg : string).

Inductive result (A : Type) : Type :=
| Ok (a : A)
| Raise (e : exn).
Arguments Ok {A} a.
Arguments Raise {A} e.

Definition rbind {A B} (r : result A) (k : A -> result B) : result B :=
  match r with
  | Ok a => k a
  | Raise e => Raise e
  end.

Declare Scope result_scope.
Delimit Scope result_scope with result.
Notation "x <- r ;; k" := (rbind r (fun x => k))
  (at level 100, r at next level, right associativity) : result_scope.
Notation "' p <- r ;; k" := (rbind r (fun p => k))
  (at level 100, p pattern, r at next level, right associativity)
  : result_scope.

(** ** Built-in operations *)

(** [d.get(k, default)] on the items of a dict. *)
Fixpoint dict_get (d : list (string * pyval)) (k : string) (default : pyval)
  : pyval :=
  match d with
  | [] => default
  | (k', v) :: d' => if String.eqb k' k then v else dict_get d' k default
  end.

Fixpoint dict_mem (d : list (string * pyval)) (k : string) : bool :=
  match d with
  | [] => false
  | (k', _) :: d' => if String.eqb k' k then true else dict_mem d' k
  end.

(** The keys of a dict, each once, in insertion order. *)
Fixpoint dict_keys (d : list (string * pyval)) : list string :=
  match d with
  | [] => []
  | (k, _) :: d' =>
      k :: filter (fun k' => negb (String.eqb k k')) (dict_keys d')
  end.

(** [v.get(k, default)]: only a dict has the method. *)
Definition py_get (v : pyval) (k : string) (default : pyval) : result pyval :=
  match v with
  | PDict d => Ok (dict_get d k default)
  | _ => Raise AttributeError
  end.

(** [v[k]] for a [str] key [k]: a dict raises [KeyError] on a missing key;
    lists and strings take integer indices only; the other values are not
    subscriptable. *)
Definition py_getitem (v : pyval) (k : string) : result pyval :=
  match v with
  | PDict d => if dict_mem d k then Ok (dict_get d k PNone)
               else Raise (KeyError k)
  | _ => Raise TypeError
  end.

(** Truth value of [v], as [if v:] tests it. *)
Definition py_truthy (v : pyval) : bool :=
  match v with
  | PNone => false
  | PBool b => b
  | PInt z => negb (z =? 0)
  | PFloat (S754_zero _) => false
  | PFloat _ => true
  | PStr s => negb (String.eqb s "")
  | PList l => match l with [] => false | _ => true end
  | PDict d => match d with [] => false | _ => true end
  end.

(** [v == s] for a [str] [s]. *)
Definition py_eq_str (v : pyval) (s : string) : bool :=
  match v with
  | PStr s' => String.eqb s' s
  | _ => false
  end.

(** [v == 0]: numbers compare by value ([False == 0] and [0.0 == 0] hold),
    everything else differs from [0]. *)
Definition py_eq_0 (v : pyval) : bool :=
  match v with
  | PInt z => z =? 0
  | PBool b => negb b
  | PFloat (S754_zero _) => true
  | _ => false
  end.

(** Is [c] a UTF-8 continuation byte (10xxxxxx)? *)
Definition utf8_cont (c : ascii) : bool :=
  let n := N_of_ascii c in ((128 <=? n) && (n <? 192))%N.

(** Splits an encoded string into its characters; the first component is
    the run of continuation bytes at its very start. *)
Fixpoint utf8_split (s : string) : string * list string :=
  match s with
  | EmptyString => (EmptyString, [])
  | String c r =>
      let (p, l) := utf8_split r in
      if utf8_cont c then (String c p, l) else (EmptyString, String c p :: l)
  end.

Definition str_chars (s : string) : list string :=
  let (p, l) := utf8_split s in
  match p with
  | EmptyString => l
  | _ => p :: l
  end.

(** The items [for x in v] runs over: the elements of a list, the keys of a
    dict, the characters of a string. *)
Definition py_iter (v : pyval) : result (list pyval) :=
  match v with
  | PList l => Ok l
  | PDict d => Ok (map PStr (dict_keys d))
  | PStr s => Ok (map PStr (str_chars s))
  | _ => Raise TypeError
  end.

(** [len(s)] for a [str]: the number of its characters. *)
Definition str_len (s : string) : Z := Z.of_nat (List.length (str_chars s)).

(** [len(v)]. *)
Definition py_len (v : pyval) : result Z :=
  match v with
  | PList l => Ok (Z.of_nat (List.length l))
  | PDict d => Ok (Z.of_nat (List.length (dict_keys d)))
  | PStr s => Ok (str_len s)
  | _ => Raise TypeError
  end.

(** [v is None]. *)
Definition is_None (v : pyval) : bool :=
  match v with
  | PNone => true
  | _ => false
  end.

(** Is [s] a substring of [t]? *)
Fixpoint str_contains (s t : string) : bool :=
  if String.prefix s t then true
  else match t with
       | EmptyString => false
       | String _ t' => str_contains s t'
       end.

(** [s in v] for a [str] [s]: a key of a dict, an element of a list, a
    substring of a string. *)
Definition py_contains_str (s : string) (v : pyval) : result bool :=
  match v with
  | PDict d => Ok (dict_mem d s)
  | PList l => Ok (existsb (fun x => py_eq_str x s) l)
  | PStr t => Ok (str_contains s t)
  | _ => Raise TypeError
  end.

(** [float(z)] for an [int]: the nearest binary64, [OverflowError] when
    that is out of range. *)
Definition float_of_Z (z : Z) : result float64 :=
  match binary_normalize prec64 emax64 z 0 false with
  | S754_infinity _ => Raise OverflowError
  | f => Ok f
  end.

(** [int(f)] for a [float]: truncation towards zero. *)
Definition Z_of_float (f : float64) : result Z :=
  match f with
  | S754_zero _ => Ok 0
  | S754_infinity _ => Raise OverflowError
  | S754_nan => Raise ValueError
  | S754_finite s m e =>
      let a := match e with
               | Zneg p => Z.shiftr (Zpos m) (Zpos p)
               | _ => Z.shiftl (Zpos m) e
               end in
      Ok (if s then - a else a)
  end.

(** [str(z)] for an [int]: its decimal numeral. *)
Definition str_of_Z (z : Z) : string := NilZero.string_of_int (Z.to_int z).

(** The parts of CPython's conversions that lie outside this repository:
    the parsers behind [float(s)] and [int(s)] for a [str] ([None] when
    they raise [ValueError]) and [repr] of a float, list or dict. *)
Class Builtins : Type := {
  float_of_str : string -> option float64;
  int_of_str : string -> option Z;
  repr : pyval -> string
}.

Section Conversions.
Context {B : Builtins}.

(** [float(v)]. *)
Definition py_float (v : pyval) : result float64 :=
  match v with
  | PFloat f => Ok f
  | PInt z => float_of_Z z
  | PBool b => float_of_Z (if b then 1 else 0)
  | PStr s => match float_of_str s with
              | Some f => Ok f
              | None => Raise ValueError
              end
  | _ => Raise TypeError
  end.

(** [int(v)]. *)
Definition py_int (v : pyval) : result Z :=
  match v with
  | PInt z => Ok z
  | PBool b => Ok (if b then 1 else 0)
  | PFloat f => Z_of_float f
  | PStr s => match int_of_str s with
              | Some z => Ok z
              | None => Raise ValueError
              end
  | _ => Raise TypeError
  end.

(** [str(v)]. *)
Definition py_str (v : pyval) : string :=
  match v with
  | PStr s => s
  | PNone => "None"
  | PBool true => "True"
  | PBool false => "False"
  | PInt z => str_of_Z z
  | _ => repr v
  end.
End Conversions.


(** ** Loops *)

(** [for x in l: acc.append(body(x))], the loop that builds a list. *)
Fixpoint for_append {A R} (body : A -> result R) (l : list A)
  : result (list R) :=
  match l with
  | [] => Ok []
  | x :: l' =>
      (y <- body x;;
       ys <- for_append body l';;
       Ok (y :: ys))%result
  end.

(** [for x in l: body(x)] where the body may [return]: [Some r] when an
    iteration returned [r], [None] when the loop ran to its end. *)
Fixpoint for_return {A R} (body : A -> result (option R)) (l : list A)
  : result (option R) :=
  match l with
  | [] => Ok None
  | x :: l' =>
      (r <- body x;;
       match r with
       | Some v => Ok (Some v)
       | None => for_return body l'
       end)%result
  end.

(** ** The outside world *)

(** A call [requests.get(url, params=..., headers=...)]. *)
Record request : Type := {
  req_url : string;
  req_params : list (string * pyval);
  req_headers : list (string * pyval)
}.

(** What the code reads of a [requests.Response]: its status code and the
    value [response.json()] decodes its body to. *)
Record response : Type := {
  status_code : Z;
  json : pyval
}.

(** The outside world: what [requests.get] does with a request (it answers
    or it raises) and the process environment [os.getenv] reads. *)
Record world : Type := {
  http_get : request -> result response;
  environ : string -> option string
}.

Inductive event : Type :=
| EvGet (r : request)
| EvPrint (s : string)
| EvPPrint (v : pyval).

(** Computations that read the world and log what they do to it. *)
Definition M (A : Type) : Type := world -> list event * result A.

Definition ret {A} (a : A) : M A := fun _ => ([], Ok a).

Definition raise {A} (e : exn) : M A := fun _ => ([], Raise e).

Definition bind {A B} (m : M A) (k : A -> M B) : M B :=
  fun w =>
    match m w with
    | (t, Ok a) => let (t', r) := k a w in ((t ++ t')%list, r)
    | (t, Raise e) => (t, Raise e)
    end.

Definition lift {A} (r : result A) : M A := fun _ => ([], r).

(** [try: m except E: ...]: [handler e] is the handler's body when the
    [except] clause matches [e], [None] when [e] passes through. *)
Definition try_except {A} (m : M A) (handler : exn -> option (M A)) : M A :=
  fun w =>
    match m w with
    | (t, Ok a) => (t, Ok a)
    | (t, Raise e) =>
        match handler e with
        | Some h => let (t', r) := h w in ((t ++ t')%list, r)
        | None => (t, Raise e)
        end
    end.

Declare Scope io_scope.
Delimit Scope io_scope with io.
Notation "x <- m ;; k" := (bind m (fun x => k))
  (at level 100, m at next level, right associativity) : io_scope.
Notation "m ;;; k" := (bind m (fun _ => k))
  (at level 100, right associativity) : io_scope.

Definition requests_get (r : request) : M response :=
  fun w => ([EvGet r], http_get w r).

(** [os.getenv(name)]: the value of the variable, [None] when it is not
    set. *)
Definition getenv_value (w : world) (name : string) : pyval :=
  match environ w name with
  | Some s => PStr s
  | None => PNone
  end.

Definition os_getenv (name : string) : M pyval :=
  fun w => ([], Ok (getenv_value w name)).

Definition print (s : string) : M unit := fun _ => ([EvPrint s], Ok tt).

Definition pprint (v : pyval) : M unit := fun _ => ([EvPPrint v], Ok tt).

(** [except requests.exceptions.RequestException:] *)
Definition except_RequestException {A} (h : M A) (e : exn) : option (M A) :=
  match e with
  | RequestException => Some h
  | _ => None
  end.

(** ** The Vacancy record *)

(** Modelled from the spec: the class [Vacancy] of [src/models/Vacancy.py]
    is not among the sources; its constructor takes nine positional
    arguments, which section 3 of the specification lists as the fields of
    an immutable record: an integer id, text fields, and a salary triple
    whose members may be absent. *)
Record Vacancy : Type := {
  id : Z;
  title : string;
  employer_name : string;
  requirement_snippet : string;
  salary_from : option float64;
  salary_to : option float64;
  currency : option string;
  location_name : string;
  url : string
}.

(** What [get_request] hands back: a list of vacancies, or [None] when the
    function body ends without a [return]. *)
Inductive retval : Type :=
| RNone
| RList (l : list Vacancy).

(** The placeholder literal of both adapters. *)
Definition no_data : string := "Нет данных".

(** ** src/api/HhAPI.py *)

Module HhAPI.

(** The instance: [__init__] sets its one attribute. *)
Record self_t : Type := { _base_url : string }.

Definition __init__ : self_t := {| _base_url := "https://api.hh.ru" |}.

Section WithBuiltins.
Context {B : Builtins}.
Local Open Scope result_scope.

(** The salary block of the loop body of [_parse]: the triple
    [(from_salary, to_salary, currency)]. *)
Definition salary_fields (item : pyval)
  : result (option float64 * option float64 * option string) :=
  salary <- py_get item "salary" (PDict []);;
  if py_truthy salary then
    c <- py_get salary "from" PNone;;
    from_salary <- (if negb (is_None c)
                    then (x <- py_get salary "from" PNone;;
                          f <- py_float x;;
                          Ok (Some f))
                    else Ok None);;
    c <- py_get salary "to" PNone;;
    to_salary <- (if negb (is_None c)
                  then (x <- py_get salary "to" PNone;;
                        f <- py_float x;;
                        Ok (Some f))
                  else Ok None);;
    c <- py_get salary "currency" PNone;;
    currency <- (if negb (is_None c)
                 then (x <- py_get salary "currency" PNone;;
                       Ok (Some (py_str x)))
                 else Ok None);;
    Ok (from_salary, to_salary, currency)
  else Ok (None, None, None).

(** The loop body of [_parse]: the vacancy of one item.  The arguments
    of the constructor are evaluated from left to right. *)
Definition parse_item (item : pyval) : result Vacancy :=
  '(from_salary, to_salary, currency) <- salary_fields item;;
  a1 <- (x <- py_get item "id" (PStr no_data);; py_int x);;
  a2 <- (x <- py_get item "name" (PStr no_data);; Ok (py_str x));;
  a3 <- (e <- py_get item "employer" (PDict []);;
         x <- py_get e "name" (PStr no_data);;
         Ok (py_str x));;
  a4 <- (s <- py_get item "snippet" (PStr no_data);;
         x <- py_get s "requirement" (PStr no_data);;
         Ok (py_str x));;
  a8 <- (a <- py_get item "area" (PDict []);;
         x <- py_get a "name" (PStr no_data);;
         Ok (py_str x));;
  a9 <- (x <- py_get item "alternate_url" (PStr no_data);;
         Ok (py_str x));;
  Ok (Build_Vacancy a1 a2 a3 a4 from_salary to_salary currency a8 a9).

Definition _parse (data_from_json : pyval) : result (list Vacancy) :=
  items <- py_get data_from_json "items" PNone;;
  l <- py_iter items;;
  for_append parse_item l.

Local Open Scope io_scope.

(** The call [get_request] makes. *)
Definition vacancies_request (self : self_t)
    (search_term city experience count order_by : pyval) : request :=
  {| req_url := _base_url self ++ "/vacancies";
     req_params := [("text", search_term);
                    ("area", city);
                    ("experience", experience);
                    ("per_page", count);
                    ("order_by", order_by)];
     req_headers := [] |}.

Definition get_request (self : self_t)
    (search_term city experience count order_by : pyval) : M retval :=
  try_except
    (response <- requests_get
                   (vacancies_request self search_term city experience
                                      count order_by);;
     if status_code response =? 200 then
       let data_from_json := json response in
       found <- lift (py_getitem data_from_json "found");;
       if py_eq_0 found then
         print "Nothing found";;;
         ret (RList [])
       else
         vacancy_list <- lift (_parse data_from_json);;
         ret (RList vacancy_list)
     else if status_code response =? 404 then
       raise (PyException "Request failed (404 status code)")
     else ret RNone)
    (except_RequestException (ret (RList []))).
End WithBuiltins.

End HhAPI.

Module ControllerHH.

Local Open Scope result_scope.

(** The innermost loop of [get_city_id]. *)
Definition region_body (city : string) (region : pyval)
  : result (option pyval) :=
  name <- py_getitem region "name";;
  if py_eq_str name city then
    i <- py_getitem region "id";;
    Ok (Some i)
  else Ok None.

(** The body of the loop over [area["areas"]]. *)
Definition country_body (city : string) (country : pyval)
  : result (option pyval) :=
  has <- py_contains_str "areas" country;;
  nonempty <- (if has
               then (a <- py_getitem country "areas";; Ok (py_truthy a))
               else Ok false);;
  if nonempty then
    a <- py_getitem country "areas";;
    regions <- py_iter a;;
    for_return (region_body city) regions
  else
    name <- py_getitem country "name";;
    if py_eq_str name city then
      i <- py_getitem country "id";;
      Ok (Some i)
    else Ok None.

(** The body of the loop over the response. *)
Definition area_body (city : string) (area : pyval)
  : result (option pyval) :=
  a <- py_getitem area "areas";;
  countries <- py_iter a;;
  for_return (country_body city) countries.

Local Open Scope io_scope.

(** The call [get_city_id] makes. *)
Definition areas_request : request :=
  {| req_url := "https://api.hh.ru/areas";
     req_params := []; req_headers := [] |}.

Definition get_city_id (city : string) : M pyval :=
  if str_len city =? 0 then ret PNone
  else
    r <- requests_get areas_request;;
    let response := json r in
    areas <- lift (py_iter response);;
    found <- lift (for_return (area_body city) areas);;
    match found with
    | Some i => ret i
    | None => ret PNone
    end.

Definition order_by (param : pyval) : pyval :=
  if py_eq_str param "1" then PStr "publication_time"
  else if py_eq_str param "2" then PStr "salary_desc"
  else PNone.

End ControllerHH.

(** ** src/api/SuperJobAPI.py *)

Module SuperJobAPI.

Record self_t : Type := { _base_url : string }.

Definition __init__ : self_t :=
  {| _base_url := "https://api.superjob.ru/2.0/vacancies/" |}.

Section WithBuiltins.
Context {B : Builtins}.
Local Open Scope result_scope.

(** The first three statements of the loop body of [_parse]. *)
Definition salary_fields (item : pyval)
  : result (option float64 * option float64 * option string) :=
  c <- py_get item "payment_from" PNone;;
  from_salary <- (if negb (py_eq_0 c)
                  then (x <- py_get item "payment_from" PNone;;
                        f <- py_float x;;
                        Ok (Some f))
                  else Ok None);;
  c <- py_get item "payment_to" PNone;;
  to_salary <- (if negb (py_eq_0 c)
                then (x <- py_get item "payment_to" PNone;;
                      f <- py_float x;;
                      Ok (Some f))
                else Ok None);;
  x <- py_get item "currency" PNone;;
  let currency := py_str x in
  Ok (from_salary, to_salary, Some currency).

(** The loop body of [_parse]. *)
Definition parse_item (item : pyval) : result Vacancy :=
  '(from_salary, to_salary, currency) <- salary_fields item;;
  a1 <- (x <- py_get item "id" (PStr no_data);; py_int x);;
  a2 <- (x <- py_get item "profession" (PStr no_data);; Ok (py_str x));;
  a3 <- (e <- py_get item "employer" (PDict []);;
         x <- py_get e "name" (PStr no_data);;
         Ok (py_str x));;
  a4 <- (x <- py_get item "candidat" (PStr no_data);; Ok (py_str x));;
  a8 <- (t <- py_get item "town" (PDict []);;
         x <- py_get t "title" (PStr no_data);;
         Ok (py_str x));;
  a9 <- (x <- py_get item "link" (PStr no_data);; Ok (py_str x));;
  Ok (Build_Vacancy a1 a2 a3 a4 from_salary to_salary currency a8 a9).

Definition _parse (raw_response : pyval) : result (list Vacancy) :=
  objects <- py_get raw_response "objects" PNone;;
  l <- py_iter objects;;
  for_append parse_item l.

Local Open Scope io_scope.

(** The call [get_request] makes, [key] being what [os.getenv] gave. *)
Definition vacancies_request (self : self_t) (key : pyval)
    (search_term city experience count order_by : pyval) : request :=
  let params := [("keyword", search_term);
                 ("town", city);
                 ("experience", experience);
                 ("count", count);
                 ("order_field", order_by)] in
  let headers := [("X-Api-App-Id", key)] in
  {| req_url := _base_url self;
     req_params := params;
     req_headers := headers |}.

Definition get_request (self : self_t)
    (search_term city experience count order_by : pyval) : M retval :=
  try_except
    (key <- os_getenv "SJ_API_KEY";;
     response <- requests_get
                   (vacancies_request self key search_term city
                                      experience count order_by);;
     if status_code response =? 200 then
       let data := json response in
       pprint data;;;
       n <- lift (py_len data);;
       if n =? 0 then
         print "Nothing found";;;
         ret (RList [])
       else
         vacancy_list <- lift (_parse data);;
         ret (RList vacancy_list)
     else if status_code response =? 404 then
       raise (PyException "Request failed (404 status code)")
     else ret RNone)
    (except_RequestException (ret (RList []))).
End WithBuiltins.

End SuperJobAPI.

Module ControllerSuperJob.

Local Open Scope result_scope.

(** The body of the loop of [validate_city]. *)
Definition town_body (city : string) (item : pyval)
  : result (option pyval) :=
  t <- py_getitem item "title";;
  if py_eq_str t city then Ok (Some (PStr city)) else Ok None.

Local Open Scope io_scope.

(** The call [validate_city] makes, [key] being what [os.getenv] gave. *)
Definition towns_request (key : pyval) : request :=
  let url := "https://api.superjob.ru/2.0/towns/" in
  let headers := [("X-Api-App-Id", key)] in
  {| req_url := url; req_params := []; req_headers := headers |}.

Definition validate_city (city : string) : M pyval :=
  if str_len city =? 0 then ret PNone
  else
    key <- os_getenv "SJ_API_KEY";;
    r <- requests_get (towns_request key);;
    let response := json r in
    objects <- lift (py_getitem response "objects");;
    items <- lift (py_iter objects);;
    found <- lift (for_return (town_body city) items);;
    match found with
    | Some c => ret c
    | None => ret PNone
    end.

Definition order_by (param : pyval) : pyval :=
  if py_eq_str param "1" then PStr "date"
  else if py_eq_str param "2" then PStr "payment_desc"
  else PStr "relevance".

End ControllerSuperJob.

(** ** Catalogs, as the providers document them *)

(** A node of the HeadHunter region catalog: an id, a name and, when the
    node has the key, the list of its children. *)
#[warnings="-register-all"]
Inductive area_node : Type :=
| Area (area_id : pyval) (area_name : string)
       (areas : option (list area_node)).

Definition area_id (a : area_node) : pyval :=
  match a with Area i _ _ => i end.

Definition area_name (a : area_node) : string :=
  match a with Area _ n _ => n end.

Definition has_areas (a : area_node) : bool :=
  match a with
  | Area _ _ (Some _) => true
  | Area _ _ None => false
  end.

Definition children (a : area_node) : list area_node :=
  match a with
  | Area _ _ (Some l) => l
  | Area _ _ None => []
  end.

(** The JSON of a node, as [/areas] serves it. *)
Fixpoint json_of_area (a : area_node) : pyval :=
  match a with
  | Area i n c =>
      PDict (("id", i) :: ("name", PStr n) ::
             match c with
             | Some l => [("areas", PList (map json_of_area l))]
             | None => []
             end)
  end.

Definition json_of_catalog (catalog : list area_node) : pyval :=
  PList (map json_of_area catalog).

(** The nodes below a second-level node that [get_city_id] compares with
    the city: its children when it has any, the node itself otherwise. *)
Definition searched_under (country : area_node) : list area_node :=
  match children country with
  | [] => [country]
  | regions => regions
  end.

(** All nodes compared with the city, in the order of the traversal. *)
Definition searched (catalog : list area_node) : list area_node :=
  flat_map (fun area => flat_map searched_under (children area)) catalog.

(** The id of the first node of [l] whose name is [city], if any. *)
Definition first_match (city : string) (l : list area_node) : option pyval :=
  option_map area_id (find (fun n => String.eqb (area_name n) city) l).

(** The SuperJob town list: the [(id, title)] of each town. *)
Definition json_of_town (t : Z * string) : pyval :=
  PDict [("id", PInt (fst t)); ("title", PStr (snd t))].

Definition json_of_towns (towns : list (Z * string)) : pyval :=
  PDict [("objects", PList (map json_of_town towns))].

(** ** Worlds and built-ins to run the code on *)

(** A catalog of the shape [/areas] serves: a country, below it a city of
    federal rank without children and a region with two towns. *)
Definition catalog_russia : list area_node :=
  [Area (PStr "113") "Russia"
     (Some [Area (PStr "1") "Moscow" (Some []);
            Area (PStr "2019") "Moscow Oblast"
              (Some [Area (PStr "2034") "Khimki" (Some []);
                     Area (PStr "2041") "Dubna" (Some [])])])].

(** Payloads to run [_parse] on.  HeadHunter: an item without salary, an
    item whose salary bounds are zero, the item of the specification's
    round trip, and an item without the key [snippet]. *)
Definition hh_item_no_salary : pyval :=
  PDict [("id", PInt 1); ("name", PStr "Developer");
         ("snippet", PDict [("requirement", PStr "Python")]);
         ("salary", PNone)].

Definition hh_item_zero_salary : pyval :=
  PDict [("id", PInt 2); ("name", PStr "Developer");
         ("snippet", PDict [("requirement", PStr "Python")]);
         ("salary", PDict [("from", PInt 0); ("to", PInt 0);
                           ("currency", PStr "RUR")])].

Definition hh_item_round_trip : pyval :=
  PDict [("id", PInt 3); ("name", PStr "Developer");
         ("snippet", PDict [("requirement", PStr "Python")]);
         ("salary", PDict [("from", PInt 100000); ("to", PNone);
                           ("currency", PStr "RUR")])].

Definition hh_item_no_snippet : pyval :=
  PDict [("id", PInt 4); ("name", PStr "Developer");
         ("employer", PDict [("name", PStr "Acme")]);
         ("salary", PNone);
         ("area", PDict [("name", PStr "Moscow")]);
         ("alternate_url", PStr "https://hh.ru/vacancy/4")].

Definition hh_payload (items : list pyval) : pyval :=
  PDict [("items", PList items); ("found", PInt (Z.of_nat (List.length items)))].

(** SuperJob: an item without any salary data (zero bounds, no currency)
    and an item with a lower bound only. *)
Definition sj_item_no_salary : pyval :=
  PDict [("id", PInt 5); ("profession", PStr "Developer");
         ("payment_from", PInt 0); ("payment_to", PInt 0)].

Definition sj_item_lower_bound : pyval :=
  PDict [("id", PInt 6); ("profession", PStr "Developer");
         ("payment_from", PInt 100000); ("payment_to", PInt 0);
         ("currency", PStr "rub")].

Definition sj_payload (items : list pyval) : pyval :=
  PDict [("objects", PList items)].

(** The binary64 numbers 0.0 and 100000.0. *)
Definition float_0 : float64 := S754_zero false.
Definition float_100000 : float64 :=
  S754_finite false 6871947673600000 (-36).

(** The vacancies these items are parsed into. *)
Definition hh_vacancy_no_salary : Vacancy :=
  Build_Vacancy 1 "Developer" no_data "Python" None None None
                no_data no_data.

Definition hh_vacancy_zero_salary : Vacancy :=
  Build_Vacancy 2 "Developer" no_data "Python"
                (Some float_0) (Some float_0) (Some "RUR") no_data no_data.

Definition hh_vacancy_round_trip : Vacancy :=
  Build_Vacancy 3 "Developer" no_data "Python"
                (Some float_100000) None (Some "RUR") no_data no_data.

Definition sj_vacancy_no_salary : Vacancy :=
  Build_Vacancy 5 "Developer" no_data no_data None None (Some "None")
                no_data no_data.

Definition sj_vacancy_lower_bound : Vacancy :=
  Build_Vacancy 6 "Developer" no_data no_data
                (Some float_100000) None (Some "rub") no_data no_data.

(** How a salary bound of a vacancy stands to the source value [x]: absent
    when the adapter takes [x] for "not provided", [float(x)] otherwise. *)
Definition parsed_bound {B : Builtins} (absent : bool) (x : pyval)
    (field : option float64) : Prop :=
  if absent then field = None
  else exists f, py_float x = Ok f /\ field = Some f.

(** A world in which every request is answered with status [status] and
    body [body], and no environment variable is set. *)
Definition world_answering (status : Z) (body : pyval) : world :=
  {| http_get := fun _ => Ok {| status_code := status; json := body |};
     environ := fun _ => None |}.

(** A world in which every request fails in transport. *)
Definition world_offline : world :=
  {| http_get := fun _ => Raise RequestException;
     environ := fun _ => None |}.

(** Built-ins under which no string is a numeral and [repr] is empty:
    enough to run the code on payloads whose numbers are JSON numbers and
    whose texts are JSON strings. *)
Definition plain_builtins : Builtins :=
  {| float_of_str := fun _ => None;
     int_of_str := fun _ => None;
     repr := fun _ => "" |}.

(** ** Notions the properties are stated with *)

(** Is the event a call of [requests.get]? *)
Definition is_get (ev : event) : bool :=
  match ev with
  | EvGet _ => true
  | _ => false
  end.



(** A result that is not the exception [RequestException]. *)
Definition no_transport {A} (r : result A) : Prop :=
  r <> Raise RequestException.

(** What [get_request] makes of the outcome of [_parse]. *)
Definition returned (r : result (list Vacancy)) : result retval :=
  match r with
  | Ok vs => Ok (RList vs)
  | Raise e => Raise e
  end.


(** HeadHunter items with a null requirement and with a salary that names
    no currency, a SuperJob item with a null [candidat], and the vacancies
    they are parsed into. *)
Definition hh_item_null_requirement : pyval :=
  PDict [("id", PInt 10); ("name", PStr "Developer");
         ("snippet", PDict [("requirement", PNone);
                            ("responsibility", PStr "Code")])].

Definition hh_vacancy_null_requirement : Vacancy :=
  Build_Vacancy 10 "Developer" no_data "None" None None None
                no_data no_data.

Definition hh_item_no_currency : pyval :=
  PDict [("id", PInt 11); ("name", PStr "Developer");
         ("snippet", PDict [("requirement", PStr "Python")]);
         ("salary", PDict [("from", PInt 100000)])].

Definition hh_vacancy_no_currency : Vacancy :=
  Build_Vacancy 11 "Developer" no_data "Python"
                (Some float_100000) None None no_data no_data.

Definition sj_item_null_candidat : pyval :=
  PDict [("id", PInt 12); ("profession", PStr "Developer");
         ("candidat", PNone);
         ("payment_from", PInt 0); ("payment_to", PInt 0);
         ("currency", PStr "rub")].

Definition sj_vacancy_null_candidat : Vacancy :=
  Build_Vacancy 12 "Developer" no_data "None" None None (Some "rub")
                no_data no_data.

(** * Properties *)

(** ** Facts about the built-in operations *)

Example float_of_Z_100000 : float_of_Z 100000 = Ok float_100000.
Proof. reflexivity. Qed.

Example float_of_Z_0 : float_of_Z 0 = Ok float_0.
Proof. reflexivity. Qed.

Example float_of_Z_overflow : float_of_Z (2 ^ 1024) = Raise OverflowError.
Proof. reflexivity. Qed.

Example Z_of_float_100000 : Z_of_float float_100000 = Ok 100000.
Proof. reflexivity. Qed.

Example str_of_Z_neg : str_of_Z (-12) = "-12".
Proof. reflexivity. Qed.

Example str_len_no_data : str_len no_data = 10.
Proof. reflexivity. Qed.

Lemma str_chars_nil (s : string) : str_chars s = [] -> s = "".
Proof.
  destruct s as [|c r]; [reflexivity|].
  unfold str_chars; cbn [utf8_split].
  destruct (utf8_split r) as [p l].
  destruct (utf8_cont c); discriminate.
Qed.

Lemma str_len_0 (s : string) : (str_len s =? 0) = true <-> s = "".
Proof.
  split.
  - intros H. apply Z.eqb_eq in H. unfold str_len in H.
    apply str_chars_nil.
    destruct (str_chars s); [reflexivity | discriminate].
  - intros ->. reflexivity.
Qed.

Lemma str_len_nonempty (s : string) : s <> "" -> (str_len s =? 0) = false.
Proof.
  intros H. destruct (str_len s =? 0) eqn:E; [|reflexivity].
  apply str_len_0 in E. contradiction.
Qed.

Lemma py_eq_str_true (v : pyval) (s : string) :
  py_eq_str v s = true <-> v = PStr s.
Proof.
  destruct v; cbn; try (split; [discriminate | congruence]).
  rewrite String.eqb_eq. split; congruence.
Qed.

Lemma py_eq_str_other (v : pyval) (s : string) :
  v <> PStr s -> py_eq_str v s = false.
Proof.
  intros H. destruct (py_eq_str v s) eqn:E; [|reflexivity].
  apply py_eq_str_true in E. contradiction.
Qed.

(** ** The status branches of [get_request] *)

Section GetRequest.
Context {B : Builtins}.
Variables (search_term city experience count order_by : pyval).
Variable w : world.

Let hh_req (self : HhAPI.self_t) : request :=
  HhAPI.vacancies_request self search_term city experience count order_by.

Let sj_req (self : SuperJobAPI.self_t) : request :=
  SuperJobAPI.vacancies_request self (getenv_value w "SJ_API_KEY")
    search_term city experience count order_by.

Let hh_run (self : HhAPI.self_t) : list event * result retval :=
  HhAPI.get_request self search_term city experience count order_by w.

Let sj_run (self : SuperJobAPI.self_t) : list event * result retval :=
  SuperJobAPI.get_request self search_term city experience count order_by w.

Ltac run_request H :=
  unfold hh_run, sj_run, hh_req, sj_req in H |- *;
  unfold HhAPI.get_request, SuperJobAPI.get_request,
    try_except, bind, os_getenv, requests_get;
  rewrite H; cbn [status_code json].

(** C5. When [requests.get] raises a [RequestException] (the transport
    failed), [get_request] of either adapter returns the empty list: the
    exception does not reach the caller. *)
Theorem get_request_transport_failure
    (hh : HhAPI.self_t) (sj : SuperJobAPI.self_t) :
  (http_get w (hh_req hh) = Raise RequestException ->
   hh_run hh = ([EvGet (hh_req hh)], Ok (RList []))) /\
  (http_get w (sj_req sj) = Raise RequestException ->
   sj_run sj = ([EvGet (sj_req sj)], Ok (RList []))).
Proof.
  split; intros H; run_request H; reflexivity.
Qed.

(** C6. A response with status 404 makes [get_request] of either adapter
    raise [Exception("Request failed (404 status code)")], which the
    handler for [RequestException] lets through to the caller. *)
Theorem get_request_404 (hh : HhAPI.self_t) (sj : SuperJobAPI.self_t)
    (r : response) :
  status_code r = 404 ->
  (http_get w (hh_req hh) = Ok r ->
   hh_run hh = ([EvGet (hh_req hh)],
                Raise (PyException "Request failed (404 status code)"))) /\
  (http_get w (sj_req sj) = Ok r ->
   sj_run sj = ([EvGet (sj_req sj)],
                Raise (PyException "Request failed (404 status code)"))).
Proof.
  intros S; split; intros H; run_request H; rewrite S; reflexivity.
Qed.

(** C9. HeadHunter: a response with status 200 whose payload has
    [found = 0] makes [get_request] return the empty list. *)
Theorem hh_get_request_nothing_found (hh : HhAPI.self_t) (r : response) :
  http_get w (hh_req hh) = Ok r ->
  status_code r = 200 ->
  py_getitem (json r) "found" = Ok (PInt 0) ->
  hh_run hh = ([EvGet (hh_req hh); EvPrint "Nothing found"], Ok (RList [])).
Proof.
  intros H S F. run_request H. rewrite S. cbn [Z.eqb Pos.eqb].
  unfold lift. rewrite F. reflexivity.
Qed.

(** C10. For a status code other than 200 and 404, [get_request] of either
    adapter runs off the end of its body: it returns [None], which is
    neither a list of vacancies nor an exception. *)
Theorem get_request_other_status
    (hh : HhAPI.self_t) (sj : SuperJobAPI.self_t) (r : response) :
  status_code r <> 200 ->
  status_code r <> 404 ->
  (http_get w (hh_req hh) = Ok r ->
   hh_run hh = ([EvGet (hh_req hh)], Ok RNone)) /\
  (http_get w (sj_req sj) = Ok r ->
   sj_run sj = ([EvGet (sj_req sj)], Ok RNone)).
Proof.
  intros S2 S4.
  apply Z.eqb_neq in S2. apply Z.eqb_neq in S4.
  split; intros H; run_request H; rewrite S2, S4; reflexivity.
Qed.

End GetRequest.

Lemma get_request_transport_failure_witness :
  snd (HhAPI.get_request (B := plain_builtins) HhAPI.__init__
         (PStr "python") PNone PNone PNone PNone world_offline)
  = Ok (RList []) /\
  snd (SuperJobAPI.get_request (B := plain_builtins) SuperJobAPI.__init__
         (PStr "python") PNone PNone PNone PNone world_offline)
  = Ok (RList []).
Proof.
  destruct (@get_request_transport_failure plain_builtins
              (PStr "python") PNone PNone PNone PNone world_offline
              HhAPI.__init__ SuperJobAPI.__init__) as [Hh Hs].
  split; [rewrite Hh | rewrite Hs]; reflexivity.
Defined.

Lemma get_request_404_witness :
  snd (HhAPI.get_request (B := plain_builtins) HhAPI.__init__
         (PStr "python") PNone PNone PNone PNone (world_answering 404 PNone))
  = Raise (PyException "Request failed (404 status code)") /\
  snd (SuperJobAPI.get_request (B := plain_builtins) SuperJobAPI.__init__
         (PStr "python") PNone PNone PNone PNone (world_answering 404 PNone))
  = Raise (PyException "Request failed (404 status code)").
Proof.
  destruct (@get_request_404 plain_builtins
              (PStr "python") PNone PNone PNone PNone
              (world_answering 404 PNone)
              HhAPI.__init__ SuperJobAPI.__init__
              {| status_code := 404; json := PNone |} eq_refl)
    as [Hh Hs].
  split; [rewrite Hh | rewrite Hs]; reflexivity.
Defined.

Lemma hh_get_request_nothing_found_witness :
  HhAPI.get_request (B := plain_builtins) HhAPI.__init__
    (PStr "python") PNone PNone PNone PNone
    (world_answering 200 (PDict [("items", PList []); ("found", PInt 0)]))
  = ([EvGet (HhAPI.vacancies_request HhAPI.__init__
               (PStr "python") PNone PNone PNone PNone);
      EvPrint "Nothing found"],
     Ok (RList [])).
Proof.
  apply (@hh_get_request_nothing_found plain_builtins
           (PStr "python") PNone PNone PNone PNone
           (world_answering 200
              (PDict [("items", PList []); ("found", PInt 0)]))
           HhAPI.__init__
           {| status_code := 200;
              json := PDict [("items", PList []); ("found", PInt 0)] |});
    reflexivity.
Defined.

Lemma get_request_other_status_witness :
  snd (HhAPI.get_request (B := plain_builtins) HhAPI.__init__
         (PStr "python") PNone PNone PNone PNone (world_answering 500 PNone))
  = Ok RNone /\
  snd (SuperJobAPI.get_request (B := plain_builtins) SuperJobAPI.__init__
         (PStr "python") PNone PNone PNone PNone (world_answering 403 PNone))
  = Ok RNone.
Proof.
  split.
  - destruct (@get_request_other_status plain_builtins
                (PStr "python") PNone PNone PNone PNone
                (world_answering 500 PNone)
                HhAPI.__init__ SuperJobAPI.__init__
                {| status_code := 500; json := PNone |})
      as [Hh _]; [cbn; lia | cbn; lia |].
    rewrite Hh; reflexivity.
  - destruct (@get_request_other_status plain_builtins
                (PStr "python") PNone PNone PNone PNone
                (world_answering 403 PNone)
                HhAPI.__init__ SuperJobAPI.__init__
                {| status_code := 403; json := PNone |})
      as [_ Hs]; [cbn; lia | cbn; lia |].
    rewrite Hs; reflexivity.
Defined.

(** ** Sort mapping *)

(** C7. [order_by] of each controller is a total function of its argument:
    HeadHunter maps ["1"] to [publication_time], ["2"] to [salary_desc] and
    anything else, [None] included, to [None]; SuperJob maps ["1"] to
    [date], ["2"] to [payment_desc] and anything else to [relevance]. *)
Theorem order_by_mapping (param : pyval) :
  ControllerHH.order_by (PStr "1") = PStr "publication_time" /\
  ControllerHH.order_by (PStr "2") = PStr "salary_desc" /\
  ControllerSuperJob.order_by (PStr "1") = PStr "date" /\
  ControllerSuperJob.order_by (PStr "2") = PStr "payment_desc" /\
  ControllerHH.order_by PNone = PNone /\
  ControllerSuperJob.order_by PNone = PStr "relevance" /\
  (param <> PStr "1" -> param <> PStr "2" ->
   ControllerHH.order_by param = PNone /\
   ControllerSuperJob.order_by param = PStr "relevance").
Proof.
  repeat (split; [reflexivity|]).
  intros H1 H2.
  unfold ControllerHH.order_by, ControllerSuperJob.order_by.
  rewrite (py_eq_str_other H1), (py_eq_str_other H2).
  split; reflexivity.
Qed.

Lemma order_by_mapping_witness :
  ControllerHH.order_by (PStr "3") = PNone /\
  ControllerSuperJob.order_by (PStr "3") = PStr "relevance".
Proof.
  apply (order_by_mapping (PStr "3")); discriminate.
Defined.

(** ** Location resolution, SuperJob *)

Lemma towns_loop (city : string) (towns : list (Z * string)) :
  for_return (ControllerSuperJob.town_body city) (map json_of_town towns)
  = Ok (if existsb (fun t => String.eqb (snd t) city) towns
        then Some (PStr city) else None).
Proof.
  induction towns as [|t towns IH]; [reflexivity|].
  cbn [map for_return existsb].
  unfold ControllerSuperJob.town_body at 1, json_of_town at 1.
  cbn [py_getitem dict_mem dict_get String.eqb Ascii.eqb Bool.eqb rbind
       py_eq_str].
  destruct (String.eqb (snd t) city); cbn [rbind orb]; [reflexivity|].
  exact IH.
Qed.

Lemma existsb_title (city : string) (towns : list (Z * string)) :
  existsb (fun t => String.eqb (snd t) city) towns = true
  <-> In city (map snd towns).
Proof.
  rewrite existsb_exists, in_map_iff.
  split; intros [t [H1 H2]]; exists t.
  - apply String.eqb_eq in H2. auto.
  - split; [assumption|]. apply String.eqb_eq. assumption.
Qed.

(** C8. [validate_city]: an empty name gives [None] and no request is
    made; otherwise, the town list being fetched, a name that is the title
    of a town (the very same string) is returned as it is, and any other
    name, however close, gives [None]. *)
Theorem validate_city_exact_match
    (towns : list (Z * string)) (city : string) (w : world) (r : response) :
  (city = "" -> ControllerSuperJob.validate_city city w = ([], Ok PNone)) /\
  (city <> "" ->
   http_get w (ControllerSuperJob.towns_request
                 (getenv_value w "SJ_API_KEY")) = Ok r ->
   json r = json_of_towns towns ->
   (In city (map snd towns) ->
    ControllerSuperJob.validate_city city w
    = ([EvGet (ControllerSuperJob.towns_request
                 (getenv_value w "SJ_API_KEY"))],
       Ok (PStr city))) /\
   (~ In city (map snd towns) ->
    ControllerSuperJob.validate_city city w
    = ([EvGet (ControllerSuperJob.towns_request
                 (getenv_value w "SJ_API_KEY"))],
       Ok PNone))).
Proof.
  split.
  - intros ->. reflexivity.
  - intros Hne Hget Hjson.
    assert (Hrun : ControllerSuperJob.validate_city city w
                   = ([EvGet (ControllerSuperJob.towns_request
                                (getenv_value w "SJ_API_KEY"))],
                      Ok (if existsb (fun t => String.eqb (snd t) city) towns
                          then PStr city else PNone))).
    { unfold ControllerSuperJob.validate_city.
      rewrite (str_len_nonempty Hne).
      unfold bind, os_getenv, requests_get, lift.
      rewrite Hget, Hjson. unfold json_of_towns.
      cbn [py_getitem dict_mem dict_get String.eqb Ascii.eqb Bool.eqb
           py_iter].
      rewrite towns_loop.
      destruct (existsb _ towns); reflexivity. }
    split; intros Hin; rewrite Hrun.
    + apply existsb_title in Hin. rewrite Hin. reflexivity.
    + destruct (existsb _ towns) eqn:E; [|reflexivity].
      apply existsb_title in E. contradiction.
Qed.

Lemma validate_city_exact_match_witness :
  ControllerSuperJob.validate_city ""
    (world_answering 200 (json_of_towns [(4, "Moscow"); (14, "Kazan")]))
  = ([], Ok PNone) /\
  snd (ControllerSuperJob.validate_city "Kazan"
         (world_answering 200 (json_of_towns [(4, "Moscow"); (14, "Kazan")])))
  = Ok (PStr "Kazan") /\
  snd (ControllerSuperJob.validate_city "kazan "
         (world_answering 200 (json_of_towns [(4, "Moscow"); (14, "Kazan")])))
  = Ok PNone.
Proof.
  pose (towns := [(4, "Moscow"); (14, "Kazan")]).
  pose (w := world_answering 200 (json_of_towns towns)).
  pose (r := {| status_code := 200; json := json_of_towns towns |}).
  split; [|split].
  - apply (validate_city_exact_match towns "" w r). reflexivity.
  - destruct (validate_city_exact_match towns "Kazan" w r) as [_ H].
    destruct H as [H _]; [discriminate | reflexivity | reflexivity |].
    fold towns. fold w. rewrite H; [reflexivity|].
    cbn. right. left. reflexivity.
  - destruct (validate_city_exact_match towns "kazan " w r) as [_ H].
    destruct H as [_ H]; [discriminate | reflexivity | reflexivity |].
    fold towns. fold w. rewrite H; [reflexivity|].
    cbn. intros [E | [E | []]]; discriminate.
Defined.

(** ** Location resolution, HeadHunter *)

Lemma first_match_app (city : string) (l1 l2 : list area_node) :
  first_match city (l1 ++ l2)
  = match first_match city l1 with
    | Some v => Some v
    | None => first_match city l2
    end.
Proof.
  unfold first_match.
  induction l1 as [|a l1 IH]; [reflexivity|].
  cbn [app find].
  destruct (String.eqb (area_name a) city); [reflexivity | exact IH].
Qed.

Lemma first_match_unique (city : string) (l : list area_node) (n : area_node) :
  NoDup (map area_name l) -> In n l -> area_name n = city ->
  first_match city l = Some (area_id n).
Proof.
  unfold first_match.
  induction l as [|a l IH]; intros ND Hin Hn; [contradiction|].
  cbn [find]. inversion ND as [|x xs Hnot ND']; subst x xs.
  destruct (String.eqb (area_name a) (area_name n)) eqn:E; subst city;
    rewrite E.
  - apply String.eqb_eq in E.
    destruct Hin as [-> | Hin]; [reflexivity|].
    exfalso. apply Hnot. rewrite E. apply in_map. exact Hin.
  - destruct Hin as [-> | Hin].
    + rewrite String.eqb_refl in E. discriminate.
    + apply IH; auto.
Qed.

Lemma first_match_none (city : string) (l : list area_node) :
  (forall n, In n l -> area_name n <> city) -> first_match city l = None.
Proof.
  unfold first_match. intros H.
  destruct (find _ l) as [n|] eqn:E; [|reflexivity].
  apply find_some in E. destruct E as [Hin E].
  apply String.eqb_eq in E. exfalso. exact (H n Hin E).
Qed.

Lemma json_of_area_eq (a : area_node) :
  json_of_area a
  = PDict (("id", area_id a) :: ("name", PStr (area_name a)) ::
           match a with
           | Area _ _ (Some l) => [("areas", PList (map json_of_area l))]
           | Area _ _ None => []
           end).
Proof. destruct a as [i n [l|]]; reflexivity. Qed.

Ltac run_dict :=
  cbn [py_getitem py_contains_str dict_mem dict_get String.eqb Ascii.eqb
       Bool.eqb rbind py_eq_str py_truthy py_iter].

Lemma regions_loop (city : string) (regions : list area_node) :
  for_return (ControllerHH.region_body city) (map json_of_area regions)
  = Ok (first_match city regions).
Proof.
  unfold first_match.
  induction regions as [|a regions IH]; [reflexivity|].
  cbn [map for_return find].
  unfold ControllerHH.region_body at 1. rewrite json_of_area_eq. run_dict.
  destruct (String.eqb (area_name a) city); run_dict; [reflexivity|].
  exact IH.
Qed.

Lemma country_body_searched (city : string) (country : area_node) :
  ControllerHH.country_body city (json_of_area country)
  = Ok (first_match city (searched_under country)).
Proof.
  unfold ControllerHH.country_body. rewrite json_of_area_eq.
  destruct country as [i n [[|region regions]|]];
    unfold searched_under; cbn [children area_id area_name map]; run_dict.
  - unfold first_match; cbn [find area_name area_id].
    destruct (String.eqb n city); reflexivity.
  - apply (regions_loop city (region :: regions)).
  - unfold first_match; cbn [find area_name area_id].
    destruct (String.eqb n city); reflexivity.
Qed.

Lemma countries_loop (city : string) (countries : list area_node) :
  for_return (ControllerHH.country_body city) (map json_of_area countries)
  = Ok (first_match city (flat_map searched_under countries)).
Proof.
  induction countries as [|c countries IH]; [reflexivity|].
  cbn [map for_return flat_map].
  rewrite country_body_searched, first_match_app. cbn [rbind].
  destruct (first_match city (searched_under c)); [reflexivity | exact IH].
Qed.

Lemma area_body_searched (city : string) (area : area_node) :
  has_areas area = true ->
  ControllerHH.area_body city (json_of_area area)
  = Ok (first_match city (flat_map searched_under (children area))).
Proof.
  destruct area as [i n [l|]]; [intros _ | discriminate].
  unfold ControllerHH.area_body. rewrite json_of_area_eq. run_dict.
  apply countries_loop.
Qed.

Lemma areas_loop (city : string) (catalog : list area_node) :
  forallb has_areas catalog = true ->
  for_return (ControllerHH.area_body city) (map json_of_area catalog)
  = Ok (first_match city (searched catalog)).
Proof.
  unfold searched.
  induction catalog as [|a catalog IH]; intros H; [reflexivity|].
  cbn [forallb] in H. apply andb_prop in H. destruct H as [Ha H].
  cbn [map for_return flat_map].
  rewrite (area_body_searched city a Ha), first_match_app. cbn [rbind].
  destruct (first_match city (flat_map searched_under (children a)));
    [reflexivity | exact (IH H)].
Qed.

(** [get_city_id] returns the id of the first searched node that bears
    the name. *)
Lemma get_city_id_first_match
    (catalog : list area_node) (city : string) (w : world) (r : response) :
  city <> "" ->
  http_get w ControllerHH.areas_request = Ok r ->
  json r = json_of_catalog catalog ->
  forallb has_areas catalog = true ->
  ControllerHH.get_city_id city w
  = ([EvGet ControllerHH.areas_request],
     Ok (match first_match city (searched catalog) with
         | Some i => i
         | None => PNone
         end)).
Proof.
  intros Hne Hget Hjson Hwf.
  unfold ControllerHH.get_city_id.
  rewrite (str_len_nonempty Hne).
  unfold bind, requests_get, lift.
  rewrite Hget, Hjson. unfold json_of_catalog. cbn [py_iter].
  rewrite (areas_loop city catalog Hwf).
  destruct (first_match city (searched catalog)); reflexivity.
Qed.

Lemma region_searched (catalog : list area_node) (area country region : area_node) :
  In area catalog -> In country (children area) ->
  In region (children country) -> In region (searched catalog).
Proof.
  intros Ha Hc Hr. unfold searched.
  apply in_flat_map. exists area. split; [assumption|].
  apply in_flat_map. exists country. split; [assumption|].
  unfold searched_under.
  destruct (children country); [contradiction | assumption].
Qed.

Lemma childless_searched (catalog : list area_node) (area country : area_node) :
  In area catalog -> In country (children area) ->
  children country = [] -> In country (searched catalog).
Proof.
  intros Ha Hc Hn. unfold searched.
  apply in_flat_map. exists area. split; [assumption|].
  apply in_flat_map. exists country. split; [assumption|].
  unfold searched_under. rewrite Hn. left. reflexivity.
Qed.

(** C4, as the code has it.  [get_city_id]: an empty name gives [None] and
    no request is made.  Otherwise, the catalog being fetched, with an
    [areas] list on each top-level node and no name borne twice among the
    nodes searched: a name borne by a sub-region (a child of a child of a
    top-level node) gives that sub-region's id; a name borne by a child of
    a top-level node that has no children of its own gives that node's id;
    a name that no searched node bears gives [None].  Top-level nodes are
    never compared with the name. *)
Theorem get_city_id_search
    (catalog : list area_node) (city : string) (w : world) (r : response) :
  (city = "" -> ControllerHH.get_city_id city w = ([], Ok PNone)) /\
  (city <> "" ->
   http_get w ControllerHH.areas_request = Ok r ->
   json r = json_of_catalog catalog ->
   forallb has_areas catalog = true ->
   (forall area country region,
      In area catalog -> In country (children area) ->
      In region (children country) ->
      area_name region = city ->
      NoDup (map area_name (searched catalog)) ->
      ControllerHH.get_city_id city w
      = ([EvGet ControllerHH.areas_request], Ok (area_id region))) /\
   (forall area country,
      In area catalog -> In country (children area) ->
      children country = [] ->
      area_name country = city ->
      NoDup (map area_name (searched catalog)) ->
      ControllerHH.get_city_id city w
      = ([EvGet ControllerHH.areas_request], Ok (area_id country))) /\
   ((forall n, In n (searched catalog) -> area_name n <> city) ->
    ControllerHH.get_city_id city w
    = ([EvGet ControllerHH.areas_request], Ok PNone))).
Proof.
  split.
  - intros ->. reflexivity.
  - intros Hne Hget Hjson Hwf.
    rewrite (@get_city_id_first_match catalog city w r Hne Hget Hjson Hwf).
    split; [|split].
    + intros area country region Ha Hc Hr Hn ND.
      rewrite (@first_match_unique city (searched catalog) region ND
                 (@region_searched catalog area country region Ha Hc Hr) Hn).
      reflexivity.
    + intros area country Ha Hc Hnil Hn ND.
      rewrite (@first_match_unique city (searched catalog) country ND
                 (@childless_searched catalog area country Ha Hc Hnil) Hn).
      reflexivity.
    + intros Hnone. rewrite (@first_match_none city (searched catalog) Hnone). reflexivity.
Qed.

Lemma get_city_id_search_witness :
  ControllerHH.get_city_id ""
    (world_answering 200 (json_of_catalog catalog_russia))
  = ([], Ok PNone) /\
  snd (ControllerHH.get_city_id "Dubna"
         (world_answering 200 (json_of_catalog catalog_russia)))
  = Ok (PStr "2041") /\
  snd (ControllerHH.get_city_id "Moscow"
         (world_answering 200 (json_of_catalog catalog_russia)))
  = Ok (PStr "1") /\
  snd (ControllerHH.get_city_id "Russia"
         (world_answering 200 (json_of_catalog catalog_russia)))
  = Ok PNone.
Proof.
  pose (w := world_answering 200 (json_of_catalog catalog_russia)).
  pose (r := {| status_code := 200; json := json_of_catalog catalog_russia |}).
  assert (ND : NoDup (map area_name (searched catalog_russia))).
  { cbn. repeat constructor; cbn; intuition discriminate. }
  split; [|split; [|split]].
  - apply (@get_city_id_search catalog_russia "" w r). reflexivity.
  - destruct (@get_city_id_search catalog_russia "Dubna" w r) as [_ H].
    destruct H as [H _]; [discriminate | reflexivity | reflexivity
                         | reflexivity |].
    fold w.
    rewrite (H (Area (PStr "113") "Russia"
                  (Some [Area (PStr "1") "Moscow" (Some []);
                         Area (PStr "2019") "Moscow Oblast"
                           (Some [Area (PStr "2034") "Khimki" (Some []);
                                  Area (PStr "2041") "Dubna" (Some [])])]))
               (Area (PStr "2019") "Moscow Oblast"
                  (Some [Area (PStr "2034") "Khimki" (Some []);
                         Area (PStr "2041") "Dubna" (Some [])]))
               (Area (PStr "2041") "Dubna" (Some [])));
      [reflexivity | cbn; auto | cbn; auto | cbn; auto | reflexivity
      | exact ND].
  - destruct (@get_city_id_search catalog_russia "Moscow" w r) as [_ H].
    destruct H as [_ [H _]]; [discriminate | reflexivity | reflexivity
                             | reflexivity |].
    fold w.
    rewrite (H (Area (PStr "113") "Russia"
                  (Some [Area (PStr "1") "Moscow" (Some []);
                         Area (PStr "2019") "Moscow Oblast"
                           (Some [Area (PStr "2034") "Khimki" (Some []);
                                  Area (PStr "2041") "Dubna" (Some [])])]))
               (Area (PStr "1") "Moscow" (Some [])));
      [reflexivity | cbn; auto | cbn; auto | reflexivity | reflexivity
      | exact ND].
  - destruct (@get_city_id_search catalog_russia "Russia" w r) as [_ H].
    destruct H as [_ [_ H]]; [discriminate | reflexivity | reflexivity
                             | reflexivity |].
    fold w. rewrite H; [reflexivity|].
    cbn. intros n [<- | [<- | [<- | []]]]; discriminate.
Defined.

(** C4, as the specification states it, fails: a name borne only by a
    top-level node without children is not found, since [get_city_id]
    compares names from the second level down. *)
Lemma get_city_id_top_level_childless :
  snd (ControllerHH.get_city_id "Monaco"
         (world_answering 200
            (json_of_catalog [Area (PStr "1") "Monaco" (Some [])])))
  = Ok PNone /\
  snd (ControllerHH.get_city_id "Monaco"
         (world_answering 200
            (json_of_catalog [Area (PStr "1") "Monaco" (Some [])])))
  <> Ok (PStr "1").
Proof.
  split; [reflexivity | discriminate].
Qed.

(** Nodes below the third level are not searched either. *)
Example get_city_id_fourth_level :
  snd (ControllerHH.get_city_id "Dmitrov"
         (world_answering 200
            (json_of_catalog
               [Area (PStr "113") "Russia"
                  (Some [Area (PStr "2019") "Moscow Oblast"
                           (Some [Area (PStr "7") "Dmitrov district"
                                    (Some [Area (PStr "8") "Dmitrov" None])])])])))
  = Ok PNone.
Proof. reflexivity. Qed.

(** A top-level node without the key [areas] makes the lookup fail. *)
Example get_city_id_top_level_without_areas :
  snd (ControllerHH.get_city_id "Monaco"
         (world_answering 200 (json_of_catalog [Area (PStr "1") "Monaco" None])))
  = Raise (KeyError "areas").
Proof. reflexivity. Qed.

(** ** Normalization of the payloads *)

Lemma for_append_Forall2 {A R} (body : A -> result R) (l : list A)
    (ys : list R) :
  for_append body l = Ok ys -> Forall2 (fun x y => body x = Ok y) l ys.
Proof.
  revert ys. induction l as [|x l IH]; intros ys H; cbn in H.
  - injection H as <-. constructor.
  - destruct (body x) as [y|] eqn:Ex; cbn in H; [|discriminate].
    destruct (for_append body l) as [ys'|] eqn:El; cbn in H; [|discriminate].
    injection H as <-. constructor; auto.
Qed.

Lemma dict_get_missing (d : list (string * pyval)) (k : string) (v : pyval) :
  dict_mem d k = false -> dict_get d k v = v.
Proof.
  induction d as [|[k' x] d IH]; cbn; [reflexivity|].
  destruct (String.eqb k' k); [discriminate | exact IH].
Qed.

Ltac inv_rbind H :=
  repeat match type of H with
         | rbind ?r _ = Ok _ =>
             let E := fresh "E" in
             destruct r eqn:E; cbn [rbind] in H; [|discriminate H]
         end.

Section Parsing.
Context {B : Builtins}.

Lemma hh_parse_list (data : pyval) (items : list pyval) (vs : list Vacancy) :
  py_get data "items" PNone = Ok (PList items) ->
  HhAPI._parse data = Ok vs ->
  Forall2 (fun item v => HhAPI.parse_item item = Ok v) items vs.
Proof.
  intros Hi H. unfold HhAPI._parse in H. rewrite Hi in H. cbn in H.
  apply for_append_Forall2. exact H.
Qed.

Lemma sj_parse_list (data : pyval) (items : list pyval) (vs : list Vacancy) :
  py_get data "objects" PNone = Ok (PList items) ->
  SuperJobAPI._parse data = Ok vs ->
  Forall2 (fun item v => SuperJobAPI.parse_item item = Ok v) items vs.
Proof.
  intros Hi H. unfold SuperJobAPI._parse in H. rewrite Hi in H. cbn in H.
  apply for_append_Forall2. exact H.
Qed.

(** The salary triple of a vacancy is the one [salary_fields] computed. *)
Lemma hh_parse_item_salary (item : pyval) (v : Vacancy) :
  HhAPI.parse_item item = Ok v ->
  HhAPI.salary_fields item = Ok (salary_from v, salary_to v, currency v).
Proof.
  unfold HhAPI.parse_item. intros H.
  destruct (HhAPI.salary_fields item) as [[[f t] c]|]; cbn [rbind] in H;
    [|discriminate].
  inv_rbind H. injection H as <-. reflexivity.
Qed.

Lemma sj_parse_item_salary (item : pyval) (v : Vacancy) :
  SuperJobAPI.parse_item item = Ok v ->
  SuperJobAPI.salary_fields item
  = Ok (salary_from v, salary_to v, currency v).
Proof.
  unfold SuperJobAPI.parse_item. intros H.
  destruct (SuperJobAPI.salary_fields item) as [[[f t] c]|];
    cbn [rbind] in H; [|discriminate].
  inv_rbind H. injection H as <-. reflexivity.
Qed.

(** One bound, as the conditional expressions of [_parse] compute it. *)
Lemma bound_parsed (absent : bool) (c : result pyval) (x : pyval)
    (field : option float64) :
  c = Ok x ->
  (if negb absent
   then (y <- c;; f <- py_float y;; Ok (Some f))%result
   else Ok None) = Ok field ->
  parsed_bound absent x field.
Proof.
  intros -> H. unfold parsed_bound.
  destruct absent; cbn in H.
  - injection H as <-. reflexivity.
  - destruct (py_float x) as [f|]; cbn in H; [|discriminate].
    injection H as <-. exists f. auto.
Qed.

Lemma hh_salary_absent (item salary : pyval)
    (t : option float64 * option float64 * option string) :
  py_get item "salary" (PDict []) = Ok salary ->
  py_truthy salary = false ->
  HhAPI.salary_fields item = Ok t ->
  t = (None, None, None).
Proof.
  intros Hs Hf H. unfold HhAPI.salary_fields in H.
  rewrite Hs in H. cbn [rbind] in H. rewrite Hf in H. congruence.
Qed.

Lemma hh_salary_present (item salary : pyval)
    (f t : option float64) (c : option string) :
  py_get item "salary" (PDict []) = Ok salary ->
  py_truthy salary = true ->
  HhAPI.salary_fields item = Ok (f, t, c) ->
  (forall x, py_get salary "from" PNone = Ok x ->
             parsed_bound (is_None x) x f) /\
  (forall x, py_get salary "to" PNone = Ok x ->
             parsed_bound (is_None x) x t).
Proof.
  intros Hs Ht H. unfold HhAPI.salary_fields in H.
  rewrite Hs in H. cbn [rbind] in H. rewrite Ht in H.
  destruct (py_get salary "from" PNone) as [x1|] eqn:E1; cbn [rbind] in H;
    [|discriminate].
  match type of H with
  | rbind ?r _ = _ => destruct r as [f'|] eqn:Ef; cbn [rbind] in H;
                      [|discriminate]
  end.
  destruct (py_get salary "to" PNone) as [x2|] eqn:E2; cbn [rbind] in H;
    [|discriminate].
  match type of H with
  | rbind ?r _ = _ => destruct r as [t'|] eqn:Et; cbn [rbind] in H;
                      [|discriminate]
  end.
  inv_rbind H. injection H as <- <- _.
  split; intros x Hx; injection Hx as <-.
  - exact (bound_parsed (is_None x1) eq_refl Ef).
  - exact (bound_parsed (is_None x2) eq_refl Et).
Qed.

Lemma sj_salary_parsed (item : pyval)
    (f t : option float64) (c : option string) :
  SuperJobAPI.salary_fields item = Ok (f, t, c) ->
  (forall x, py_get item "payment_from" PNone = Ok x ->
             parsed_bound (py_eq_0 x) x f) /\
  (forall x, py_get item "payment_to" PNone = Ok x ->
             parsed_bound (py_eq_0 x) x t) /\
  (exists x, py_get item "currency" PNone = Ok x /\ c = Some (py_str x)).
Proof.
  intros H. unfold SuperJobAPI.salary_fields in H.
  destruct (py_get item "payment_from" PNone) as [x1|] eqn:E1;
    cbn [rbind] in H; [|discriminate].
  match type of H with
  | rbind ?r _ = _ => destruct r as [f'|] eqn:Ef; cbn [rbind] in H;
                      [|discriminate]
  end.
  destruct (py_get item "payment_to" PNone) as [x2|] eqn:E2;
    cbn [rbind] in H; [|discriminate].
  match type of H with
  | rbind ?r _ = _ => destruct r as [t'|] eqn:Et; cbn [rbind] in H;
                      [|discriminate]
  end.
  destruct (py_get item "currency" PNone) as [x3|] eqn:E3;
    cbn [rbind] in H; [|discriminate].
  injection H as <- <- <-.
  split; [|split].
  - intros x Hx; injection Hx as <-.
    exact (bound_parsed (py_eq_0 x1) eq_refl Ef).
  - intros x Hx; injection Hx as <-.
    exact (bound_parsed (py_eq_0 x2) eq_refl Et).
  - exists x3. auto.
Qed.

End Parsing.

(** The items above, run through [_parse]. *)
Example hh_parse_examples (B : Builtins) :
  HhAPI._parse (hh_payload [hh_item_no_salary; hh_item_zero_salary;
                            hh_item_round_trip])
  = Ok [hh_vacancy_no_salary; hh_vacancy_zero_salary; hh_vacancy_round_trip].
Proof. reflexivity. Qed.

Example sj_parse_examples (B : Builtins) :
  SuperJobAPI._parse (sj_payload [sj_item_no_salary; sj_item_lower_bound])
  = Ok [sj_vacancy_no_salary; sj_vacancy_lower_bound].
Proof. reflexivity. Qed.

(** A SuperJob item without the key [payment_from] yields no vacancy:
    [None != 0] holds, and [float(None)] raises. *)
Example sj_parse_without_payment_from (B : Builtins) :
  SuperJobAPI._parse
    (sj_payload [PDict [("id", PInt 7); ("profession", PStr "Developer")]])
  = Raise TypeError.
Proof. reflexivity. Qed.

(** ** The salary triple *)

(** C1, as the code has it.  HeadHunter: an item whose [salary] is missing,
    null or empty yields a vacancy with no lower bound, no upper bound and
    no currency.  SuperJob: the currency of a vacancy is always a text,
    [str] of the item's [currency] (the text [None] when the item has no
    such key), whatever the salary bounds are. *)
Theorem salary_triple_without_salary {B : Builtins} :
  (forall data items vs,
     py_get data "items" PNone = Ok (PList items) ->
     HhAPI._parse data = Ok vs ->
     Forall2 (fun item v =>
                forall salary,
                  py_get item "salary" (PDict []) = Ok salary ->
                  py_truthy salary = false ->
                  salary_from v = None /\ salary_to v = None /\
                  currency v = None)
             items vs) /\
  (forall data items vs,
     py_get data "objects" PNone = Ok (PList items) ->
     SuperJobAPI._parse data = Ok vs ->
     Forall2 (fun item v =>
                exists x, py_get item "currency" PNone = Ok x /\
                          currency v = Some (py_str x))
             items vs).
Proof.
  split; intros data items vs Hi H.
  - apply (hh_parse_list _ Hi) in H.
    revert H. apply Forall2_impl. intros item v Hv salary Hs Hf.
    apply hh_parse_item_salary in Hv.
    pose proof (hh_salary_absent _ Hs Hf Hv) as E.
    injection E as -> -> ->. auto.
  - apply (sj_parse_list _ Hi) in H.
    revert H. apply Forall2_impl. intros item v Hv.
    apply sj_parse_item_salary in Hv.
    apply sj_salary_parsed in Hv. tauto.
Qed.

Lemma salary_triple_without_salary_witness :
  Forall2 (fun item v =>
             forall salary,
               py_get item "salary" (PDict []) = Ok salary ->
               py_truthy salary = false ->
               salary_from v = None /\ salary_to v = None /\
               currency v = None)
          [hh_item_no_salary] [hh_vacancy_no_salary] /\
  Forall2 (fun item v =>
             exists x, py_get item "currency" PNone = Ok x /\
                       currency v = Some (py_str (B := plain_builtins) x))
          [sj_item_no_salary] [sj_vacancy_no_salary].
Proof.
  destruct (@salary_triple_without_salary plain_builtins) as [Hh Hs].
  split.
  - apply (Hh (hh_payload [hh_item_no_salary])); reflexivity.
  - apply (Hs (sj_payload [sj_item_no_salary])); reflexivity.
Defined.

(** C1, as the specification states it, fails on SuperJob: an item with
    zero bounds and no currency yields a vacancy without bounds whose
    currency is the text [None], under any reading of the built-ins. *)
Lemma sj_no_salary_keeps_currency :
  ~ exists B : Builtins,
      forall vs,
        SuperJobAPI._parse (sj_payload [sj_item_no_salary]) = Ok vs ->
        Forall (fun v => salary_from v = None /\ salary_to v = None /\
                         currency v = None) vs.
Proof.
  intros [B H].
  specialize (H [sj_vacancy_no_salary] eq_refl).
  inversion H as [|v vs [_ [_ Hc]] _]. discriminate Hc.
Qed.

(** C2, as the code has it.  SuperJob: a bound [payment_from] or
    [payment_to] that equals zero is absent from the vacancy, any other
    value [x] is there as [float(x)].  HeadHunter, for an item with a
    non-empty [salary]: a bound [from] or [to] that is null or missing is
    absent from the vacancy, any other value [x], zero included, is there
    as [float(x)]. *)
Theorem salary_bounds_parsed {B : Builtins} :
  (forall data items vs,
     py_get data "objects" PNone = Ok (PList items) ->
     SuperJobAPI._parse data = Ok vs ->
     Forall2 (fun item v =>
                (forall x, py_get item "payment_from" PNone = Ok x ->
                           parsed_bound (py_eq_0 x) x (salary_from v)) /\
                (forall x, py_get item "payment_to" PNone = Ok x ->
                           parsed_bound (py_eq_0 x) x (salary_to v)))
             items vs) /\
  (forall data items vs,
     py_get data "items" PNone = Ok (PList items) ->
     HhAPI._parse data = Ok vs ->
     Forall2 (fun item v =>
                forall salary,
                  py_get item "salary" (PDict []) = Ok salary ->
                  py_truthy salary = true ->
                  (forall x, py_get salary "from" PNone = Ok x ->
                             parsed_bound (is_None x) x (salary_from v)) /\
                  (forall x, py_get salary "to" PNone = Ok x ->
                             parsed_bound (is_None x) x (salary_to v)))
             items vs).
Proof.
  split; intros data items vs Hi H.
  - apply (sj_parse_list _ Hi) in H.
    revert H. apply Forall2_impl. intros item v Hv.
    apply sj_parse_item_salary in Hv.
    apply sj_salary_parsed in Hv. tauto.
  - apply (hh_parse_list _ Hi) in H.
    revert H. apply Forall2_impl. intros item v Hv salary Hs Ht.
    apply hh_parse_item_salary in Hv.
    exact (hh_salary_present _ Hs Ht Hv).
Qed.

Lemma salary_bounds_parsed_witness :
  Forall2 (fun item v =>
             (forall x, py_get item "payment_from" PNone = Ok x ->
                        parsed_bound (B := plain_builtins)
                          (py_eq_0 x) x (salary_from v)) /\
             (forall x, py_get item "payment_to" PNone = Ok x ->
                        parsed_bound (B := plain_builtins)
                          (py_eq_0 x) x (salary_to v)))
          [sj_item_no_salary; sj_item_lower_bound]
          [sj_vacancy_no_salary; sj_vacancy_lower_bound] /\
  Forall2 (fun item v =>
             forall salary,
               py_get item "salary" (PDict []) = Ok salary ->
               py_truthy salary = true ->
               (forall x, py_get salary "from" PNone = Ok x ->
                          parsed_bound (B := plain_builtins)
                            (is_None x) x (salary_from v)) /\
               (forall x, py_get salary "to" PNone = Ok x ->
                          parsed_bound (B := plain_builtins)
                            (is_None x) x (salary_to v)))
          [hh_item_zero_salary; hh_item_round_trip]
          [hh_vacancy_zero_salary; hh_vacancy_round_trip].
Proof.
  destruct (@salary_bounds_parsed plain_builtins) as [Hs Hh].
  split.
  - apply (Hs (sj_payload [sj_item_no_salary; sj_item_lower_bound]));
      reflexivity.
  - apply (Hh (hh_payload [hh_item_zero_salary; hh_item_round_trip]));
      reflexivity.
Defined.

(** C2, as the specification states it, fails on HeadHunter: salary
    bounds of zero are parsed into the vacancy as 0.0, under any reading
    of the built-ins. *)
Lemma hh_zero_salary_is_parsed :
  ~ exists B : Builtins,
      forall vs,
        HhAPI._parse (hh_payload [hh_item_zero_salary]) = Ok vs ->
        Forall (fun v => salary_from v = None /\ salary_to v = None) vs.
Proof.
  intros [B H].
  specialize (H [hh_vacancy_zero_salary] eq_refl).
  inversion H as [|v vs [Hf _] _]. discriminate Hf.
Qed.

(** ** Text fields *)

(** C3 fails on HeadHunter: the default of [item.get('snippet', ...)] is
    the placeholder text, which has no method [get], so an item without
    the key [snippet] yields no vacancy at all. *)
Theorem hh_parse_without_snippet (B : Builtins) :
  HhAPI._parse (hh_payload [hh_item_no_snippet]) = Raise AttributeError.
Proof. reflexivity. Qed.

(** No HeadHunter item without the key [snippet] is parsed. *)
Lemma hh_parse_item_needs_snippet (B : Builtins)
    (d : list (string * pyval)) (v : Vacancy) :
  dict_mem d "snippet" = false ->
  HhAPI.parse_item (PDict d) <> Ok v.
Proof.
  intros Hm H. unfold HhAPI.parse_item in H.
  destruct (HhAPI.salary_fields (PDict d)) as [[[f t] c]|];
    cbn [rbind] in H; [|discriminate].
  cbn [py_get] in H. rewrite (@dict_get_missing d "snippet" (PStr no_data) Hm) in H.
  cbn [rbind] in H.
  destruct (py_int (dict_get d "id" (PStr no_data))); cbn [rbind] in H;
    [|discriminate].
  destruct (py_get (dict_get d "employer" (PDict [])) "name" (PStr no_data));
    cbn [rbind py_get] in H; discriminate.
Qed.

(** The SuperJob text fields of an item that has none of the keys. *)
Example sj_parse_placeholders (B : Builtins) :
  SuperJobAPI._parse
    (sj_payload [PDict [("id", PInt 8); ("payment_from", PInt 0);
                        ("payment_to", PInt 0)]])
  = Ok [Build_Vacancy 8 no_data no_data no_data None None (Some "None")
                      no_data no_data].
Proof. reflexivity. Qed.

(** A sub-object that is there but null is not replaced by the default
    either: [None] has no method [get]. *)
Example sj_parse_null_employer (B : Builtins) :
  SuperJobAPI._parse
    (sj_payload [PDict [("id", PInt 9); ("payment_from", PInt 0);
                        ("payment_to", PInt 0); ("employer", PNone)]])
  = Raise AttributeError.
Proof. reflexivity. Qed.

(** * Further properties of the adapters *)

(** ** The pure part never raises a transport exception *)

Lemma rbind_no_transport {A R} (r : result A) (k : A -> result R) :
  no_transport r -> (forall a, no_transport (k a)) ->
  no_transport (rbind r k).
Proof.
  intros Hr Hk. destruct r as [a|e]; cbn; [apply Hk|].
  intros E. apply Hr. congruence.
Qed.

Lemma Ok_no_transport {A} (a : A) : no_transport (Ok a).
Proof. discriminate. Qed.

Lemma py_get_no_transport (v : pyval) (k : string) (d : pyval) :
  no_transport (py_get v k d).
Proof. destruct v; discriminate. Qed.

Lemma py_getitem_no_transport (v : pyval) (k : string) :
  no_transport (py_getitem v k).
Proof.
  destruct v; try discriminate. cbn. destruct (dict_mem d k); discriminate.
Qed.

Lemma py_iter_no_transport (v : pyval) : no_transport (py_iter v).
Proof. destruct v; discriminate. Qed.

Lemma py_len_no_transport (v : pyval) : no_transport (py_len v).
Proof. destruct v; discriminate. Qed.

Lemma float_of_Z_no_transport (z : Z) : no_transport (float_of_Z z).
Proof.
  unfold float_of_Z.
  destruct (binary_normalize prec64 emax64 z 0 false); discriminate.
Qed.

Lemma py_float_no_transport {B : Builtins} (v : pyval) :
  no_transport (py_float v).
Proof.
  destruct v; cbn; try discriminate; try apply float_of_Z_no_transport.
  destruct (float_of_str s); discriminate.
Qed.

Lemma py_int_no_transport {B : Builtins} (v : pyval) :
  no_transport (py_int v).
Proof.
  destruct v; cbn; try discriminate.
  - destruct f; discriminate.
  - destruct (int_of_str s); discriminate.
Qed.

Lemma for_append_no_transport {A R} (body : A -> result R) (l : list A) :
  (forall x, no_transport (body x)) -> no_transport (for_append body l).
Proof.
  intros Hb. induction l as [|x l IH]; cbn [for_append].
  - apply Ok_no_transport.
  - apply rbind_no_transport; [apply Hb|]. intros y.
    apply rbind_no_transport; [exact IH|]. intros ys.
    apply Ok_no_transport.
Qed.

Create HintDb pure_exn.
#[local] Hint Resolve Ok_no_transport py_get_no_transport
  py_getitem_no_transport py_iter_no_transport py_len_no_transport
  py_float_no_transport py_int_no_transport : pure_exn.

Ltac no_transport_steps :=
  repeat first
    [ solve [auto with pure_exn]
    | apply rbind_no_transport
    | progress intros
    | match goal with
      | |- no_transport (if ?b then _ else _) => destruct b
      | |- no_transport (match ?p with pair _ _ => _ end) => destruct p
      end ].

Lemma hh_parse_no_transport {B : Builtins} (data : pyval) :
  no_transport (HhAPI._parse data).
Proof.
  unfold HhAPI._parse. no_transport_steps.
  apply for_append_no_transport. intros item.
  unfold HhAPI.parse_item, HhAPI.salary_fields. no_transport_steps.
Qed.

Lemma sj_parse_no_transport {B : Builtins} (data : pyval) :
  no_transport (SuperJobAPI._parse data).
Proof.
  unfold SuperJobAPI._parse. no_transport_steps.
  apply for_append_no_transport. intros item.
  unfold SuperJobAPI.parse_item, SuperJobAPI.salary_fields.
  no_transport_steps.
Qed.

(** ** [get_request] as a whole *)

Lemma except_other {A} (h : M A) (e : exn) :
  e <> RequestException -> except_RequestException h e = None.
Proof. destruct e; cbn; congruence. Qed.

Lemma try_except_catches {A} (m : M A) (x : A) (w : world) :
  snd (try_except m (except_RequestException (ret x)) w)
  <> Raise RequestException.
Proof.
  unfold try_except. destruct (m w) as [t [a|e]]; cbn; [discriminate|].
  destruct e; cbn; discriminate.
Qed.

Ltac split_cases :=
  repeat (cbv beta iota;
          match goal with
          | |- context [match http_get ?w ?r with _ => _ end] =>
              destruct (http_get w r)
          | |- context [match py_getitem ?v ?k with _ => _ end] =>
              destruct (py_getitem v k)
          | |- context [match py_iter ?v with _ => _ end] =>
              destruct (py_iter v)
          | |- context [match py_len ?v with _ => _ end] =>
              destruct (py_len v)
          | |- context [match for_return ?f ?l with _ => _ end] =>
              destruct (for_return f l)
          | |- context [match HhAPI._parse ?v with _ => _ end] =>
              destruct (HhAPI._parse v)
          | |- context [match SuperJobAPI._parse ?v with _ => _ end] =>
              destruct (SuperJobAPI._parse v)
          | |- context [if ?b then _ else _] => destruct b
          | |- context [match ?e with TypeError => _ | _ => _ end] =>
              is_var e; destruct e
          | |- context [match ?o with Some _ => _ | None => _ end] =>
              is_var o; destruct o
          end).

Section GetRequestWhole.
Context {B : Builtins}.
Variables (search_term city experience count order_by : pyval).
Variable w : world.

Let hh_req (self : HhAPI.self_t) : request :=
  HhAPI.vacancies_request self search_term city experience count order_by.

Let sj_req (self : SuperJobAPI.self_t) : request :=
  SuperJobAPI.vacancies_request self (getenv_value w "SJ_API_KEY")
    search_term city experience count order_by.

Let hh_run (self : HhAPI.self_t) : list event * result retval :=
  HhAPI.get_request self search_term city experience count order_by w.

Let sj_run (self : SuperJobAPI.self_t) : list event * result retval :=
  SuperJobAPI.get_request self search_term city experience count order_by w.

(** X1. Whatever the world does and whatever the payload is,
    [get_request] of either adapter never raises a [RequestException]:
    the whole body stands inside the [try]. *)
Theorem get_request_never_raises_transport
    (hh : HhAPI.self_t) (sj : SuperJobAPI.self_t) :
  snd (hh_run hh) <> Raise RequestException /\
  snd (sj_run sj) <> Raise RequestException.
Proof.
  split; apply try_except_catches.
Qed.

(** X2. Whatever the world does, a call of [get_request] makes exactly one
    HTTP request, the search request, before anything else it does. *)
Theorem get_request_one_request
    (hh : HhAPI.self_t) (sj : SuperJobAPI.self_t) :
  (exists t, fst (hh_run hh) = EvGet (hh_req hh) :: t /\
             filter is_get t = []) /\
  (exists t, fst (sj_run sj) = EvGet (sj_req sj) :: t /\
             filter is_get t = []).
Proof.
  unfold hh_run, sj_run, hh_req, sj_req,
    HhAPI.get_request, SuperJobAPI.get_request,
    try_except, bind, os_getenv, requests_get, lift, print, pprint,
    ret, raise, except_RequestException.
  split; split_cases; cbn [fst app]; eexists; split; reflexivity.
Qed.

(** X3. HeadHunter, status 200.  A payload without the key [found] makes
    [get_request] raise [KeyError]; a payload whose [found] is not zero is
    handed to [_parse], and [get_request] returns the list [_parse]
    returns or raises the exception [_parse] raises: a payload of the
    wrong shape is not softened into an empty list. *)
Theorem hh_get_request_200 (hh : HhAPI.self_t) (r : response) :
  http_get w (hh_req hh) = Ok r ->
  status_code r = 200 ->
  (forall d, json r = PDict d -> dict_mem d "found" = false ->
             hh_run hh = ([EvGet (hh_req hh)], Raise (KeyError "found"))) /\
  (forall found, py_getitem (json r) "found" = Ok found ->
                 py_eq_0 found = false ->
                 hh_run hh = ([EvGet (hh_req hh)],
                              returned (HhAPI._parse (json r)))).
Proof.
  intros H S.
  unfold hh_run, hh_req in *. unfold HhAPI.get_request, try_except, bind,
    requests_get, lift.
  rewrite H, S. cbn [Z.eqb Pos.eqb].
  split.
  - intros d -> Hm. cbn [py_getitem]. rewrite Hm. reflexivity.
  - intros found F Z0. rewrite F, Z0.
    pose proof (hh_parse_no_transport (json r)) as NT.
    destruct (HhAPI._parse (json r)) as [vs|e]; cbn; [reflexivity|].
    rewrite except_other; [reflexivity | congruence].
Qed.

(** X4. SuperJob, status 200.  A payload that is not empty is printed and
    handed to [_parse], and [get_request] returns the list [_parse]
    returns or raises the exception [_parse] raises; a payload that has no
    length (null, a number) makes it raise the [TypeError] of [len]. *)
Theorem sj_get_request_200 (sj : SuperJobAPI.self_t) (r : response) :
  http_get w (sj_req sj) = Ok r ->
  status_code r = 200 ->
  (forall n, py_len (json r) = Ok n -> n <> 0 ->
             sj_run sj = ([EvGet (sj_req sj); EvPPrint (json r)],
                          returned (SuperJobAPI._parse (json r)))) /\
  (forall e, py_len (json r) = Raise e ->
             sj_run sj = ([EvGet (sj_req sj); EvPPrint (json r)], Raise e)).
Proof.
  intros H S.
  unfold sj_run, sj_req in *.
  unfold SuperJobAPI.get_request, try_except, bind, os_getenv,
    requests_get, lift, pprint.
  rewrite H, S. cbn [Z.eqb Pos.eqb].
  split.
  - intros n L N. rewrite L. apply Z.eqb_neq in N. rewrite N.
    pose proof (sj_parse_no_transport (json r)) as NT.
    destruct (SuperJobAPI._parse (json r)) as [vs|e]; cbn; [reflexivity|].
    rewrite except_other; [reflexivity | congruence].
  - intros e L. rewrite L.
    pose proof (py_len_no_transport (json r)) as NT. rewrite L in NT.
    cbn. rewrite except_other; [reflexivity | congruence].
Qed.

End GetRequestWhole.

Lemma hh_get_request_200_witness :
  HhAPI.get_request (B := plain_builtins) HhAPI.__init__
    (PStr "python") PNone PNone PNone PNone
    (world_answering 200 (PDict [("items", PList [])]))
  = ([EvGet (HhAPI.vacancies_request HhAPI.__init__
               (PStr "python") PNone PNone PNone PNone)],
     Raise (KeyError "found")) /\
  HhAPI.get_request (B := plain_builtins) HhAPI.__init__
    (PStr "python") PNone PNone PNone PNone
    (world_answering 200 (hh_payload [hh_item_round_trip]))
  = ([EvGet (HhAPI.vacancies_request HhAPI.__init__
               (PStr "python") PNone PNone PNone PNone)],
     Ok (RList [hh_vacancy_round_trip])).
Proof.
  split.
  - destruct (@hh_get_request_200 plain_builtins
                (PStr "python") PNone PNone PNone PNone
                (world_answering 200 (PDict [("items", PList [])]))
                HhAPI.__init__
                {| status_code := 200; json := PDict [("items", PList [])] |}
                eq_refl eq_refl) as [H _].
    apply (H [("items", PList [])]); reflexivity.
  - destruct (@hh_get_request_200 plain_builtins
                (PStr "python") PNone PNone PNone PNone
                (world_answering 200 (hh_payload [hh_item_round_trip]))
                HhAPI.__init__
                {| status_code := 200;
                   json := hh_payload [hh_item_round_trip] |}
                eq_refl eq_refl) as [_ H].
    apply (H (PInt 1)); reflexivity.
Defined.

Lemma sj_get_request_200_witness :
  snd (SuperJobAPI.get_request (B := plain_builtins) SuperJobAPI.__init__
         (PStr "python") PNone PNone PNone PNone
         (world_answering 200 (sj_payload [])))
  = Ok (RList []) /\
  snd (SuperJobAPI.get_request (B := plain_builtins) SuperJobAPI.__init__
         (PStr "python") PNone PNone PNone PNone
         (world_answering 200 PNone))
  = Raise TypeError.
Proof.
  split.
  - destruct (@sj_get_request_200 plain_builtins
                (PStr "python") PNone PNone PNone PNone
                (world_answering 200 (sj_payload []))
                SuperJobAPI.__init__
                {| status_code := 200; json := sj_payload [] |}
                eq_refl eq_refl) as [H _].
    rewrite (H 1); [reflexivity | reflexivity | discriminate].
  - destruct (@sj_get_request_200 plain_builtins
                (PStr "python") PNone PNone PNone PNone
                (world_answering 200 PNone)
                SuperJobAPI.__init__
                {| status_code := 200; json := PNone |}
                eq_refl eq_refl) as [_ H].
    rewrite (H TypeError); reflexivity.
Defined.

(** ** [_parse] as a whole *)

Section ParseWhole.
Context {B : Builtins}.

(** The fields of a vacancy, read back from the item it was made of. *)
Lemma hh_parse_item_fields (item : pyval) (v : Vacancy) :
  HhAPI.parse_item item = Ok v ->
  exists d,
    item = PDict d /\
    py_int (dict_get d "id" (PStr no_data)) = Ok (id v) /\
    title v = py_str (dict_get d "name" (PStr no_data)) /\
    (exists e, dict_get d "employer" (PDict []) = PDict e /\
               employer_name v = py_str (dict_get e "name" (PStr no_data))) /\
    (exists s, dict_get d "snippet" (PStr no_data) = PDict s /\
               requirement_snippet v
               = py_str (dict_get s "requirement" (PStr no_data))) /\
    (exists a, dict_get d "area" (PDict []) = PDict a /\
               location_name v = py_str (dict_get a "name" (PStr no_data))) /\
    url v = py_str (dict_get d "alternate_url" (PStr no_data)).
Proof.
  intros H. unfold HhAPI.parse_item in H.
  destruct item as [| | | | |l|d];
    try (unfold HhAPI.salary_fields in H; cbn [py_get rbind] in H;
         discriminate).
  destruct (HhAPI.salary_fields (PDict d)) as [[[f t] c]|];
    cbn [rbind py_get] in H; [|discriminate].
  destruct (py_int (dict_get d "id" (PStr no_data))) as [i|] eqn:Ei;
    cbn [rbind] in H; [|discriminate].
  destruct (dict_get d "employer" (PDict [])) as [| | | | | |e] eqn:Ee;
    cbn [rbind py_get] in H; try discriminate.
  destruct (dict_get d "snippet" (PStr no_data)) as [| | | | | |s] eqn:Es;
    cbn [rbind py_get] in H; try discriminate.
  destruct (dict_get d "area" (PDict [])) as [| | | | | |a] eqn:Ea;
    cbn [rbind py_get] in H; try discriminate.
  injection H as <-. exists d. cbn.
  repeat split; eauto.
Qed.

Lemma sj_parse_item_fields (item : pyval) (v : Vacancy) :
  SuperJobAPI.parse_item item = Ok v ->
  exists d,
    item = PDict d /\
    py_int (dict_get d "id" (PStr no_data)) = Ok (id v) /\
    title v = py_str (dict_get d "profession" (PStr no_data)) /\
    (exists e, dict_get d "employer" (PDict []) = PDict e /\
               employer_name v = py_str (dict_get e "name" (PStr no_data))) /\
    requirement_snippet v = py_str (dict_get d "candidat" (PStr no_data)) /\
    (exists t, dict_get d "town" (PDict []) = PDict t /\
               location_name v = py_str (dict_get t "title" (PStr no_data))) /\
    url v = py_str (dict_get d "link" (PStr no_data)).
Proof.
  intros H. unfold SuperJobAPI.parse_item in H.
  destruct item as [| | | | |l|d];
    try (unfold SuperJobAPI.salary_fields in H; cbn [py_get rbind] in H;
         discriminate).
  destruct (SuperJobAPI.salary_fields (PDict d)) as [[[f t] c]|];
    cbn [rbind py_get] in H; [|discriminate].
  destruct (py_int (dict_get d "id" (PStr no_data))) as [i|] eqn:Ei;
    cbn [rbind] in H; [|discriminate].
  destruct (dict_get d "employer" (PDict [])) as [| | | | | |e] eqn:Ee;
    cbn [rbind py_get] in H; try discriminate.
  destruct (dict_get d "town" (PDict [])) as [| | | | | |a] eqn:Ea;
    cbn [rbind py_get] in H; try discriminate.
  injection H as <-. exists d. cbn.
  repeat split; eauto.
Qed.

End ParseWhole.

Lemma for_append_first_failure {A R} (body : A -> result R)
    (l1 : list A) (x : A) (l2 : list A) (e : exn) :
  (forall y, In y l1 -> exists r, body y = Ok r) ->
  body x = Raise e ->
  for_append body (l1 ++ x :: l2) = Raise e.
Proof.
  intros Hok Hx. induction l1 as [|y l1 IH]; cbn [app for_append].
  - rewrite Hx. reflexivity.
  - destruct (Hok y (or_introl eq_refl)) as [r Hr]. rewrite Hr. cbn [rbind].
    rewrite IH; [reflexivity|].
    intros z Hz. apply Hok. right. exact Hz.
Qed.

Lemma hh_salary_currency {B : Builtins} (item salary : pyval)
    (f t : option float64) (c : option string) :
  py_get item "salary" (PDict []) = Ok salary ->
  py_truthy salary = true ->
  HhAPI.salary_fields item = Ok (f, t, c) ->
  forall x, py_get salary "currency" PNone = Ok x ->
            c = if is_None x then None else Some (py_str x).
Proof.
  intros Hs Ht H x Hx. unfold HhAPI.salary_fields in H.
  rewrite Hs in H. cbn [rbind] in H. rewrite Ht in H.
  destruct (py_get salary "from" PNone) as [x1|]; cbn [rbind] in H;
    [|discriminate].
  match type of H with
  | rbind ?r _ = _ => destruct r as [f'|]; cbn [rbind] in H; [|discriminate]
  end.
  destruct (py_get salary "to" PNone) as [x2|]; cbn [rbind] in H;
    [|discriminate].
  match type of H with
  | rbind ?r _ = _ => destruct r as [t'|]; cbn [rbind] in H; [|discriminate]
  end.
  rewrite Hx in H. cbn [rbind] in H.
  destruct (is_None x); cbn [negb rbind] in H; congruence.
Qed.

(** X5. [_parse] of either adapter, when it returns, returns one vacancy
    per item of the payload, in the order of the items, and the id of each
    vacancy is [int] of the item's [id]. *)
Theorem parse_one_vacancy_per_item {B : Builtins} :
  (forall data items vs,
     py_get data "items" PNone = Ok (PList items) ->
     HhAPI._parse data = Ok vs ->
     List.length vs = List.length items /\
     Forall2 (fun item v =>
                exists x, py_get item "id" (PStr no_data) = Ok x /\
                          py_int x = Ok (id v))
             items vs) /\
  (forall data items vs,
     py_get data "objects" PNone = Ok (PList items) ->
     SuperJobAPI._parse data = Ok vs ->
     List.length vs = List.length items /\
     Forall2 (fun item v =>
                exists x, py_get item "id" (PStr no_data) = Ok x /\
                          py_int x = Ok (id v))
             items vs).
Proof.
  split; intros data items vs Hi H.
  - apply (hh_parse_list _ Hi) in H. split.
    + symmetry. exact (Forall2_length H).
    + revert H. apply Forall2_impl. intros item v Hv.
      apply hh_parse_item_fields in Hv.
      destruct Hv as [d [-> [Hid _]]]. eexists. split; [reflexivity|].
      exact Hid.
  - apply (sj_parse_list _ Hi) in H. split.
    + symmetry. exact (Forall2_length H).
    + revert H. apply Forall2_impl. intros item v Hv.
      apply sj_parse_item_fields in Hv.
      destruct Hv as [d [-> [Hid _]]]. eexists. split; [reflexivity|].
      exact Hid.
Qed.

Lemma parse_one_vacancy_per_item_witness :
  (List.length [hh_vacancy_no_salary; hh_vacancy_round_trip]
   = List.length [hh_item_no_salary; hh_item_round_trip] /\
   Forall2 (fun item v =>
              exists x, py_get item "id" (PStr no_data) = Ok x /\
                        py_int (B := plain_builtins) x = Ok (id v))
           [hh_item_no_salary; hh_item_round_trip]
           [hh_vacancy_no_salary; hh_vacancy_round_trip]) /\
  (List.length [sj_vacancy_no_salary; sj_vacancy_lower_bound]
   = List.length [sj_item_no_salary; sj_item_lower_bound] /\
   Forall2 (fun item v =>
              exists x, py_get item "id" (PStr no_data) = Ok x /\
                        py_int (B := plain_builtins) x = Ok (id v))
           [sj_item_no_salary; sj_item_lower_bound]
           [sj_vacancy_no_salary; sj_vacancy_lower_bound]).
Proof.
  destruct (@parse_one_vacancy_per_item plain_builtins) as [Hh Hs].
  split.
  - apply (Hh (hh_payload [hh_item_no_salary; hh_item_round_trip]));
      reflexivity.
  - apply (Hs (sj_payload [sj_item_no_salary; sj_item_lower_bound]));
      reflexivity.
Defined.

(** X6. [_parse] of either adapter returns all vacancies or none: when an
    item cannot be parsed, [_parse] raises the exception of the first such
    item, whatever the items before it yielded and whatever comes after. *)
Theorem parse_first_failure {B : Builtins} :
  (forall data before item after e,
     py_get data "items" PNone = Ok (PList (before ++ item :: after)) ->
     (forall y, In y before -> exists v, HhAPI.parse_item y = Ok v) ->
     HhAPI.parse_item item = Raise e ->
     HhAPI._parse data = Raise e) /\
  (forall data before item after e,
     py_get data "objects" PNone = Ok (PList (before ++ item :: after)) ->
     (forall y, In y before -> exists v, SuperJobAPI.parse_item y = Ok v) ->
     SuperJobAPI.parse_item item = Raise e ->
     SuperJobAPI._parse data = Raise e).
Proof.
  split; intros data before item after e Hi Hok He.
  - unfold HhAPI._parse. rewrite Hi. cbn [rbind py_iter].
    apply for_append_first_failure; assumption.
  - unfold SuperJobAPI._parse. rewrite Hi. cbn [rbind py_iter].
    apply for_append_first_failure; assumption.
Qed.

Lemma parse_first_failure_witness :
  HhAPI._parse (B := plain_builtins)
    (hh_payload [hh_item_round_trip; hh_item_no_snippet; PDict []])
  = Raise AttributeError /\
  SuperJobAPI._parse (B := plain_builtins)
    (sj_payload [sj_item_lower_bound; PDict [("id", PInt 7)]; PInt 0])
  = Raise TypeError.
Proof.
  destruct (@parse_first_failure plain_builtins) as [Hh Hs].
  split.
  - apply (Hh _ [hh_item_round_trip] hh_item_no_snippet [PDict []]);
      [reflexivity | | reflexivity].
    intros y [<- | []]. exists hh_vacancy_round_trip. reflexivity.
  - apply (Hs _ [sj_item_lower_bound] (PDict [("id", PInt 7)]) [PInt 0]);
      [reflexivity | | reflexivity].
    intros y [<- | []]. exists sj_vacancy_lower_bound. reflexivity.
Defined.

(** X7. In every vacancy [_parse] returns, a text field whose key the item
    does not have holds the placeholder [no_data]: for the flat fields,
    for a missing sub-object [employer], [area] or [town], and for a
    sub-object that lacks the inner key. *)
Theorem parse_missing_text_is_placeholder {B : Builtins} :
  (forall data items vs,
     py_get data "items" PNone = Ok (PList items) ->
     HhAPI._parse data = Ok vs ->
     Forall2 (fun item v =>
                forall d, item = PDict d ->
                  (dict_mem d "name" = false -> title v = no_data) /\
                  (dict_mem d "employer" = false ->
                   employer_name v = no_data) /\
                  (forall e, dict_get d "employer" PNone = PDict e ->
                             dict_mem e "name" = false ->
                             employer_name v = no_data) /\
                  (forall s, dict_get d "snippet" PNone = PDict s ->
                             dict_mem s "requirement" = false ->
                             requirement_snippet v = no_data) /\
                  (dict_mem d "area" = false -> location_name v = no_data) /\
                  (forall a, dict_get d "area" PNone = PDict a ->
                             dict_mem a "name" = false ->
                             location_name v = no_data) /\
                  (dict_mem d "alternate_url" = false -> url v = no_data))
             items vs) /\
  (forall data items vs,
     py_get data "objects" PNone = Ok (PList items) ->
     SuperJobAPI._parse data = Ok vs ->
     Forall2 (fun item v =>
                forall d, item = PDict d ->
                  (dict_mem d "profession" = false -> title v = no_data) /\
                  (dict_mem d "employer" = false ->
                   employer_name v = no_data) /\
                  (forall e, dict_get d "employer" PNone = PDict e ->
                             dict_mem e "name" = false ->
                             employer_name v = no_data) /\
                  (dict_mem d "candidat" = false ->
                   requirement_snippet v = no_data) /\
                  (dict_mem d "town" = false -> location_name v = no_data) /\
                  (forall t, dict_get d "town" PNone = PDict t ->
                             dict_mem t "title" = false ->
                             location_name v = no_data) /\
                  (dict_mem d "link" = false -> url v = no_data))
             items vs).
Proof.
  assert (Hsub : forall d k dflt x,
             dict_get d k PNone = PDict x -> dict_get d k dflt = PDict x).
  { intros d k dflt x. induction d as [|[k' y] d IH]; cbn;
      [discriminate|]. destruct (String.eqb k' k); auto. }
  split; intros data items vs Hi H.
  - apply (hh_parse_list _ Hi) in H.
    revert H. apply Forall2_impl. intros item v Hv d ->.
    apply hh_parse_item_fields in Hv.
    destruct Hv as [d' [E [_ [Ht [[e [Ee He]] [[s [Es Hs]]
                                  [[a [Ea Ha]] Hu]]]]]]].
    injection E as <-.
    repeat split.
    + intros M. rewrite Ht, (@dict_get_missing d _ _ M). reflexivity.
    + intros M. rewrite (@dict_get_missing d _ _ M) in Ee.
      injection Ee as <-. exact He.
    + intros e' E' M. rewrite (Hsub _ _ (PDict []) _ E') in Ee.
      injection Ee as <-. rewrite He, (@dict_get_missing e' _ _ M).
      reflexivity.
    + intros s' E' M. rewrite (Hsub _ _ (PStr no_data) _ E') in Es.
      injection Es as <-. rewrite Hs, (@dict_get_missing s' _ _ M).
      reflexivity.
    + intros M. rewrite (@dict_get_missing d _ _ M) in Ea.
      injection Ea as <-. exact Ha.
    + intros a' E' M. rewrite (Hsub _ _ (PDict []) _ E') in Ea.
      injection Ea as <-. rewrite Ha, (@dict_get_missing a' _ _ M).
      reflexivity.
    + intros M. rewrite Hu, (@dict_get_missing d _ _ M). reflexivity.
  - apply (sj_parse_list _ Hi) in H.
    revert H. apply Forall2_impl. intros item v Hv d ->.
    apply sj_parse_item_fields in Hv.
    destruct Hv as [d' [E [_ [Ht [[e [Ee He]] [Hc [[a [Ea Ha]] Hu]]]]]]].
    injection E as <-.
    repeat split.
    + intros M. rewrite Ht, (@dict_get_missing d _ _ M). reflexivity.
    + intros M. rewrite (@dict_get_missing d _ _ M) in Ee.
      injection Ee as <-. exact He.
    + intros e' E' M. rewrite (Hsub _ _ (PDict []) _ E') in Ee.
      injection Ee as <-. rewrite He, (@dict_get_missing e' _ _ M).
      reflexivity.
    + intros M. rewrite Hc, (@dict_get_missing d _ _ M). reflexivity.
    + intros M. rewrite (@dict_get_missing d _ _ M) in Ea.
      injection Ea as <-. exact Ha.
    + intros a' E' M. rewrite (Hsub _ _ (PDict []) _ E') in Ea.
      injection Ea as <-. rewrite Ha, (@dict_get_missing a' _ _ M).
      reflexivity.
    + intros M. rewrite Hu, (@dict_get_missing d _ _ M). reflexivity.
Qed.

Lemma parse_missing_text_is_placeholder_witness :
  (employer_name hh_vacancy_no_salary = no_data /\
   location_name hh_vacancy_no_salary = no_data /\
   url hh_vacancy_no_salary = no_data) /\
  (employer_name sj_vacancy_no_salary = no_data /\
   requirement_snippet sj_vacancy_no_salary = no_data /\
   url sj_vacancy_no_salary = no_data).
Proof.
  destruct (@parse_missing_text_is_placeholder plain_builtins) as [Hh Hs].
  split.
  - pose proof (Hh (hh_payload [hh_item_no_salary]) [hh_item_no_salary]
                  [hh_vacancy_no_salary] eq_refl eq_refl) as F.
    inversion F as [|item v l l' P _]; subst.
    destruct (P _ eq_refl) as [_ [He [_ [_ [Ha [_ Hu]]]]]].
    split; [|split]; [apply He | apply Ha | apply Hu]; reflexivity.
  - pose proof (Hs (sj_payload [sj_item_no_salary]) [sj_item_no_salary]
                  [sj_vacancy_no_salary] eq_refl eq_refl) as F.
    inversion F as [|item v l l' P _]; subst.
    destruct (P _ eq_refl) as [_ [He [_ [Hc [_ [_ Hu]]]]]].
    split; [|split]; [apply He | apply Hc | apply Hu]; reflexivity.
Defined.

(** X8. In every vacancy [_parse] returns, a text field whose key the item
    has with the value null holds the text [None], not the placeholder:
    the default of [get] serves missing keys only. *)
Theorem parse_null_text_is_None {B : Builtins} :
  (forall data items vs,
     py_get data "items" PNone = Ok (PList items) ->
     HhAPI._parse data = Ok vs ->
     Forall2 (fun item v =>
                (py_get item "name" (PStr no_data) = Ok PNone ->
                 title v = "None") /\
                (forall e, py_get item "employer" (PDict []) = Ok e ->
                           py_get e "name" (PStr no_data) = Ok PNone ->
                           employer_name v = "None") /\
                (forall s, py_get item "snippet" (PStr no_data) = Ok s ->
                           py_get s "requirement" (PStr no_data) = Ok PNone ->
                           requirement_snippet v = "None") /\
                (forall a, py_get item "area" (PDict []) = Ok a ->
                           py_get a "name" (PStr no_data) = Ok PNone ->
                           location_name v = "None") /\
                (py_get item "alternate_url" (PStr no_data) = Ok PNone ->
                 url v = "None"))
             items vs) /\
  (forall data items vs,
     py_get data "objects" PNone = Ok (PList items) ->
     SuperJobAPI._parse data = Ok vs ->
     Forall2 (fun item v =>
                (py_get item "profession" (PStr no_data) = Ok PNone ->
                 title v = "None") /\
                (forall e, py_get item "employer" (PDict []) = Ok e ->
                           py_get e "name" (PStr no_data) = Ok PNone ->
                           employer_name v = "None") /\
                (py_get item "candidat" (PStr no_data) = Ok PNone ->
                 requirement_snippet v = "None") /\
                (forall t, py_get item "town" (PDict []) = Ok t ->
                           py_get t "title" (PStr no_data) = Ok PNone ->
                           location_name v = "None") /\
                (py_get item "link" (PStr no_data) = Ok PNone ->
                 url v = "None"))
             items vs).
Proof.
  split; intros data items vs Hi H.
  - apply (hh_parse_list _ Hi) in H.
    revert H. apply Forall2_impl. intros item v Hv.
    apply hh_parse_item_fields in Hv.
    destruct Hv as [d [-> [_ [Ht [[e [Ee He]] [[s [Es Hs]]
                                  [[a [Ea Ha]] Hu]]]]]]].
    cbn [py_get]. repeat split.
    + intros E. injection E as E. rewrite Ht, E. reflexivity.
    + intros e' E1 E2. injection E1 as <-. rewrite Ee in E2.
      injection E2 as E2. rewrite He, E2. reflexivity.
    + intros s' E1 E2. injection E1 as <-. rewrite Es in E2.
      injection E2 as E2. rewrite Hs, E2. reflexivity.
    + intros a' E1 E2. injection E1 as <-. rewrite Ea in E2.
      injection E2 as E2. rewrite Ha, E2. reflexivity.
    + intros E. injection E as E. rewrite Hu, E. reflexivity.
  - apply (sj_parse_list _ Hi) in H.
    revert H. apply Forall2_impl. intros item v Hv.
    apply sj_parse_item_fields in Hv.
    destruct Hv as [d [-> [_ [Ht [[e [Ee He]] [Hc [[a [Ea Ha]] Hu]]]]]]].
    cbn [py_get]. repeat split.
    + intros E. injection E as E. rewrite Ht, E. reflexivity.
    + intros e' E1 E2. injection E1 as <-. rewrite Ee in E2.
      injection E2 as E2. rewrite He, E2. reflexivity.
    + intros E. injection E as E. rewrite Hc, E. reflexivity.
    + intros a' E1 E2. injection E1 as <-. rewrite Ea in E2.
      injection E2 as E2. rewrite Ha, E2. reflexivity.
    + intros E. injection E as E. rewrite Hu, E. reflexivity.
Qed.

Lemma parse_null_text_is_None_witness :
  requirement_snippet hh_vacancy_null_requirement = "None" /\
  requirement_snippet sj_vacancy_null_candidat = "None".
Proof.
  destruct (@parse_null_text_is_None plain_builtins) as [Hh Hs].
  split.
  - pose proof (Hh (hh_payload [hh_item_null_requirement])
                  [hh_item_null_requirement] [hh_vacancy_null_requirement]
                  eq_refl eq_refl) as F.
    inversion F as [|item v l l' P _]; subst.
    destruct P as [_ [_ [Hr _]]].
    apply (Hr (PDict [("requirement", PNone);
                      ("responsibility", PStr "Code")])); reflexivity.
  - pose proof (Hs (sj_payload [sj_item_null_candidat])
                  [sj_item_null_candidat] [sj_vacancy_null_candidat]
                  eq_refl eq_refl) as F.
    inversion F as [|item v l l' P _]; subst.
    destruct P as [_ [_ [Hc _]]].
    apply Hc; reflexivity.
Defined.

(** X9. HeadHunter: for an item with a non-empty [salary], the currency of
    the vacancy follows the key [currency] alone: absent when the value is
    null or missing, [str] of the value otherwise.  So a vacancy can have
    a bound and no currency. *)
Theorem hh_currency_parsed {B : Builtins} (data : pyval)
    (items : list pyval) (vs : list Vacancy) :
  py_get data "items" PNone = Ok (PList items) ->
  HhAPI._parse data = Ok vs ->
  Forall2 (fun item v =>
             forall salary x,
               py_get item "salary" (PDict []) = Ok salary ->
               py_truthy salary = true ->
               py_get salary "currency" PNone = Ok x ->
               currency v = if is_None x then None else Some (py_str x))
          items vs.
Proof.
  intros Hi H. apply (hh_parse_list _ Hi) in H.
  revert H. apply Forall2_impl. intros item v Hv salary x Hs Ht Hx.
  apply hh_parse_item_salary in Hv.
  exact (hh_salary_currency _ Hs Ht Hv Hx).
Qed.

Lemma hh_currency_parsed_witness :
  salary_from hh_vacancy_no_currency = Some float_100000 /\
  currency hh_vacancy_no_currency = None /\
  currency hh_vacancy_round_trip = Some "RUR".
Proof.
  pose proof (@hh_currency_parsed plain_builtins
                (hh_payload [hh_item_no_currency; hh_item_round_trip])
                [hh_item_no_currency; hh_item_round_trip]
                [hh_vacancy_no_currency; hh_vacancy_round_trip]
                eq_refl eq_refl) as F.
  inversion F as [|i1 v1 l1 l1' P1 F1]; subst.
  inversion F1 as [|i2 v2 l2 l2' P2 _]; subst.
  split; [reflexivity|]. split.
  - apply (P1 (PDict [("from", PInt 100000)]) PNone); reflexivity.
  - apply (P2 (PDict [("from", PInt 100000); ("to", PNone);
                      ("currency", PStr "RUR")]) (PStr "RUR")); reflexivity.
Defined.

(** ** The controllers as a whole *)

Lemma town_loop_result (city : string) (l : list pyval) (v : pyval) :
  for_return (ControllerSuperJob.town_body city) l = Ok (Some v) ->
  v = PStr city.
Proof.
  induction l as [|x l IH]; cbn [for_return]; [discriminate|].
  unfold ControllerSuperJob.town_body at 1.
  destruct (py_getitem x "title") as [t|]; cbn [rbind]; [|discriminate].
  destruct (py_eq_str t city); cbn [rbind]; [congruence | exact IH].
Qed.



(** X11. The controllers do not soften a failure of their request: for a
    non-empty name, whatever [requests.get] raises, a transport failure
    included, is raised by [get_city_id] and by [validate_city]. *)
Theorem location_request_failure (city : string) (w : world) (e : exn) :
  city <> "" ->
  (http_get w ControllerHH.areas_request = Raise e ->
   ControllerHH.get_city_id city w
   = ([EvGet ControllerHH.areas_request], Raise e)) /\
  (http_get w (ControllerSuperJob.towns_request
                 (getenv_value w "SJ_API_KEY")) = Raise e ->
   ControllerSuperJob.validate_city city w
   = ([EvGet (ControllerSuperJob.towns_request
                (getenv_value w "SJ_API_KEY"))], Raise e)).
Proof.
  intros Hne.
  unfold ControllerHH.get_city_id, ControllerSuperJob.validate_city.
  rewrite (str_len_nonempty Hne).
  unfold bind, os_getenv, requests_get.
  split; intros H; rewrite H; reflexivity.
Qed.

Lemma location_request_failure_witness :
  snd (ControllerHH.get_city_id "Moscow" world_offline)
  = Raise RequestException /\
  snd (ControllerSuperJob.validate_city "Moscow" world_offline)
  = Raise RequestException.
Proof.
  destruct (@location_request_failure "Moscow" world_offline
              RequestException) as [Hh Hs]; [discriminate|].
  split; [rewrite Hh | rewrite Hs]; reflexivity.
Defined.

(** X12. For a non-empty name each controller makes exactly one request
    and does nothing else to the world, whatever the answer is. *)
Theorem location_one_request (city : string) (w : world) :
  city <> "" ->
  fst (ControllerHH.get_city_id city w)
  = [EvGet ControllerHH.areas_request] /\
  fst (ControllerSuperJob.validate_city city w)
  = [EvGet (ControllerSuperJob.towns_request
              (getenv_value w "SJ_API_KEY"))].
Proof.
  intros Hne.
  unfold ControllerHH.get_city_id, ControllerSuperJob.validate_city.
  rewrite (str_len_nonempty Hne).
  unfold bind, os_getenv, requests_get, lift, ret.
  split; split_cases; reflexivity.
Qed.

Lemma location_one_request_witness :
  fst (ControllerHH.get_city_id "Moscow" (world_answering 500 PNone))
  = [EvGet ControllerHH.areas_request] /\
  fst (ControllerSuperJob.validate_city "Moscow" (world_answering 500 PNone))
  = [EvGet (ControllerSuperJob.towns_request PNone)].
Proof.
  apply (@location_one_request "Moscow" (world_answering 500 PNone)).
  discriminate.
Defined.

(** X13. Whatever the town list holds, [validate_city] returns nothing but
    [None] or the very name it was given. *)
Theorem validate_city_result (city : string) (w : world) (v : pyval) :
  snd (ControllerSuperJob.validate_city city w) = Ok v ->
  v = PNone \/ v = PStr city.
Proof.
  unfold ControllerSuperJob.validate_city.
  destruct (str_len city =? 0); [cbn; intros H; left; congruence|].
  unfold bind, os_getenv, requests_get, lift, ret. cbv beta iota.
  destruct (http_get w _) as [r|]; cbv beta iota; [|discriminate].
  destruct (py_getitem (json r) "objects") as [o|]; cbv beta iota;
    [|discriminate].
  destruct (py_iter o) as [l|]; cbv beta iota; [|discriminate].
  destruct (for_return (ControllerSuperJob.town_body city) l)
    as [[c|]|] eqn:E; cbv beta iota; cbn [snd]; intros H.
  - right. apply town_loop_result in E. congruence.
  - left. congruence.
  - discriminate.
Qed.

Lemma validate_city_result_witness :
  PStr "Kazan" = PNone \/ PStr "Kazan" = PStr "Kazan".
Proof.
  apply (@validate_city_result "Kazan"
           (world_answering 200
              (json_of_towns [(4, "Moscow"); (14, "Kazan")]))).
  reflexivity.
Defined.









